(** * PR-agent MCP servers (unit 3 starters): a shallow embedding

    Two Python modules are embedded:

    - [BuildMcpServer]  : projects/unit3/build-mcp-server/starter/server.py
    - [GithubActions]   : projects/unit3/github-actions-integration/starter/server.py

    Every tool of these servers ends in [return json.dumps(v)].  A tool is
    embedded as a function into [result json]: [Return v] stands for the
    tool returning the text [json.dumps(v)] and [Raise e] for the exception
    [e] leaving the tool.  [json.dumps] is total on the values that occur
    (None, bool, int, str, list and dict with str keys), so the encoded text
    is represented by the value it encodes.

    Scope of the value model: a Python [str] is a Rocq [string] whose
    characters are the code points 0..255; JSON numbers are integers. *)

From Stdlib Require Import String Ascii List ZArith Lia Bool DecimalString.
Import ListNotations.

Set Warnings "-register-all".

Local Open Scope string_scope.
Local Open Scope Z_scope.

(* ================================================================= *)
(** ** Python values, exceptions and the builtins the servers use *)

Module Py.

(** Values produced by [json.load] and consumed by [json.dumps].  A dict is
    an association list in insertion order; [dict_get] reads the first
    binding of a key. *)
Inductive json : Type :=
| JNull
| JBool (b : bool)
| JInt (n : Z)
| JStr (s : string)
| JArr (items : list json)
| JObj (fields : list (string * json)).

(** Exceptions.  [CalledProcessError] keeps the attributes the handlers read
    ([e.stderr], [str(e)]); every other exception is its class name together
    with the text [str(e)]. *)
Inductive exn : Type :=
| CalledProcessError (cmd : list string) (returncode : Z) (stdout stderr : string)
| PyError (cls : string) (text : string).

Inductive result (A : Type) : Type :=
| Return (a : A)
| Raise (e : exn).
Arguments Return {A} a.
Arguments Raise {A} e.

Definition bind {A B : Type} (m : result A) (k : A -> result B) : result B :=
  match m with
  | Return a => k a
  | Raise e => Raise e
  end.

(** [try: body  except Exception as e: handler(e)] *)
Definition try_except {A : Type} (body : result A) (handler : exn -> result A) : result A :=
  match body with
  | Return a => Return a
  | Raise e => handler e
  end.

(** *** Integers and text *)

(** [str(n)] / [f"{n}"] for an int. *)
Definition str_of_int (n : Z) : string := NilZero.string_of_int (Z.to_int n).

Definition code (c : ascii) : N := N_of_ascii c.

Definition LF : ascii := ascii_of_N 10.
Definition CR : ascii := ascii_of_N 13.
Definition TAB : ascii := ascii_of_N 9.
Definition NL : string := String LF "".

(** [sep.join(parts)] *)
Definition join (sep : string) (parts : list string) : string := String.concat sep parts.

(** [s.split(sep)] for a one-character separator: never empty. *)
Fixpoint split (sep : ascii) (s : string) : list string :=
  match s with
  | EmptyString => [""]
  | String c s' =>
      if Ascii.eqb c sep then "" :: split sep s'
      else match split sep s' with
           | [] => [String c ""]
           | w :: ws => String c w :: ws
           end
  end.

(** [s.split(sep, 1)]: at most one cut, at the first separator. *)
Fixpoint split_once (sep : ascii) (s : string) : list string :=
  match s with
  | EmptyString => [""]
  | String c s' =>
      if Ascii.eqb c sep then [""; s']
      else match split_once sep s' with
           | [] => [String c ""]
           | w :: ws => String c w :: ws
           end
  end.

(** Line boundaries of [str.splitlines] below code point 256:
    \n \v \f \r \x1c \x1d \x1e \x85. *)
Definition is_linebreak (c : ascii) : bool :=
  let n := code c in
  ((10 <=? n) && (n <=? 13) || (28 <=? n) && (n <=? 30) || (n =? 133))%N.

(** [s.splitlines()]: \r\n is one boundary and a final boundary opens no
    further line. *)
Fixpoint splitlines (s : string) : list string :=
  match s with
  | EmptyString => []
  | String c s' =>
      if is_linebreak c then
        "" :: match s' with
              | String d s'' => if Ascii.eqb c CR && Ascii.eqb d LF
                                then splitlines s'' else splitlines s'
              | EmptyString => []
              end
      else match splitlines s' with
           | [] => [String c ""]
           | w :: ws => String c w :: ws
           end
  end.

(** Characters [str.strip()] removes, below code point 256. *)
Definition is_space (c : ascii) : bool :=
  let n := code c in
  ((9 <=? n) && (n <=? 13) || (28 <=? n) && (n <=? 32) || (n =? 133) || (n =? 160))%N.

Fixpoint lstrip (s : string) : string :=
  match s with
  | EmptyString => ""
  | String c s' => if is_space c then lstrip s' else s
  end.

Fixpoint rstrip (s : string) : string :=
  match s with
  | EmptyString => ""
  | String c s' =>
      match rstrip s' with
      | EmptyString => if is_space c then "" else String c ""
      | r => String c r
      end
  end.

Definition strip (s : string) : string := lstrip (rstrip s).

(** [c.lower()] below code point 256: A-Z and the accented capitals
    0xC0-0xDE (0xD7, the multiplication sign, apart) move up by 32. *)
Definition lower_char (c : ascii) : ascii :=
  let n := code c in
  if ((65 <=? n) && (n <=? 90) || (192 <=? n) && (n <=? 222) && negb (n =? 215))%N
  then ascii_of_N (n + 32) else c.

Fixpoint lower (s : string) : string :=
  match s with
  | EmptyString => ""
  | String c s' => String (lower_char c) (lower s')
  end.

Fixpoint ends_with (suffix s : string) : bool :=
  String.eqb s suffix ||
  match s with
  | EmptyString => false
  | String _ s' => ends_with suffix s'
  end.

(** *** Sequences *)

(** Python clamps a slice bound [i] of a sequence of length [n] to [0..n],
    counting a negative bound from the end. *)
Definition clamp (n : nat) (i : Z) : nat :=
  let len := Z.of_nat n in
  Z.to_nat (if i <? 0 then Z.max 0 (i + len) else Z.min i len).

(** [xs[:stop]] *)
Definition slice_to {A : Type} (stop : Z) (xs : list A) : list A :=
  firstn (clamp (List.length xs) stop) xs.

(** [xs[start:]] *)
Definition slice_from {A : Type} (start : Z) (xs : list A) : list A :=
  skipn (clamp (List.length xs) start) xs.

(** [xs[-1]] of a non-empty list. *)
Definition last_item (xs : list string) : string := List.last xs "".

(** *** Dicts *)

Fixpoint dict_get (k : string) (d : list (string * json)) : option json :=
  match d with
  | [] => None
  | (k', v) :: d' => if String.eqb k' k then Some v else dict_get k d'
  end.

(** [d.get(k)] and [d.get(k, default)] *)
Definition get (k : string) (d : list (string * json)) : json :=
  match dict_get k d with Some v => v | None => JNull end.

Definition get_default (k : string) (default : json) (d : list (string * json)) : json :=
  match dict_get k d with Some v => v | None => default end.

(** *** Dynamic typing *)

Definition type_name (v : json) : string :=
  match v with
  | JNull => "NoneType"
  | JBool _ => "bool"
  | JInt _ => "int"
  | JStr _ => "str"
  | JArr _ => "list"
  | JObj _ => "dict"
  end.

(** [bool(v)] *)
Definition truthy (v : json) : bool :=
  match v with
  | JNull => false
  | JBool b => b
  | JInt n => negb (n =? 0)
  | JStr s => negb (String.eqb s "")
  | JArr l => match l with [] => false | _ => true end
  | JObj d => match d with [] => false | _ => true end
  end.

(** [a == b].  bool is a subclass of int (True == 1); dicts compare as
    mappings, whatever the order of their items. *)
Fixpoint py_eq (a b : json) {struct a} : bool :=
  match a, b with
  | JNull, JNull => true
  | JBool x, JBool y => Bool.eqb x y
  | JBool x, JInt n => Z.b2z x =? n
  | JInt m, JBool y => m =? Z.b2z y
  | JInt m, JInt n => m =? n
  | JStr s, JStr t => String.eqb s t
  | JArr l, JArr r =>
      (fix items (l r : list json) {struct l} : bool :=
         match l, r with
         | [], [] => true
         | x :: l', y :: r' => py_eq x y && items l' r'
         | _, _ => false
         end) l r
  | JObj d, JObj e =>
      Nat.eqb (List.length d) (List.length e) &&
      (fix fields (d : list (string * json)) {struct d} : bool :=
         match d with
         | [] => true
         | (k, v) :: d' =>
             match dict_get k e with
             | Some w => py_eq v w
             | None => false
             end && fields d'
         end) d
  | _, _ => false
  end.

Definition unorderable (a b : json) : exn :=
  PyError "TypeError"
    ("'<' not supported between instances of '" ++ type_name a ++ "' and '"
       ++ type_name b ++ "'").

(** [a < b]: numbers by value, str by code points, lists by their first
    differing items; any other pairing raises TypeError. *)
Fixpoint py_lt (a b : json) {struct a} : result bool :=
  match a, b with
  | JBool x, JBool y => Return (Z.b2z x <? Z.b2z y)
  | JBool x, JInt n => Return (Z.b2z x <? n)
  | JInt m, JBool y => Return (m <? Z.b2z y)
  | JInt m, JInt n => Return (m <? n)
  | JStr s, JStr t => Return (String.ltb s t)
  | JArr l, JArr r =>
      (fix items (l r : list json) {struct l} : result bool :=
         match l, r with
         | [], [] => Return false
         | [], _ :: _ => Return true
         | _ :: _, [] => Return false
         | x :: l', y :: r' => if py_eq x y then items l' r' else py_lt x y
         end) l r
  | _, _ => Raise (unorderable a b)
  end.

(** [hash(v)] succeeds on None, bool, int and str only. *)
Definition hashable (v : json) : bool :=
  match v with
  | JArr _ | JObj _ => false
  | _ => true
  end.

Definition unhashable (v : json) : exn :=
  PyError "TypeError" ("unhashable type: '" ++ type_name v ++ "'").

(** [for x in v]: the items of a list, the keys of a dict, the characters
    of a str. *)
Definition chars (s : string) : list json :=
  List.map (fun c => JStr (String c "")) (list_ascii_of_string s).

Definition iterate (v : json) : result (list json) :=
  match v with
  | JArr l => Return l
  | JObj d => Return (List.map (fun kv => JStr (fst kv)) d)
  | JStr s => Return (chars s)
  | _ => Raise (PyError "TypeError" ("'" ++ type_name v ++ "' object is not iterable"))
  end.

(** [v[start:]]: lists and strs slice; a dict cannot take a slice as key
    and the other types are not subscriptable. *)
Definition subscript_from (start : Z) (v : json) : result json :=
  match v with
  | JArr l => Return (JArr (slice_from start l))
  | JStr s => Return (JStr (string_of_list_ascii (slice_from start (list_ascii_of_string s))))
  | JObj _ => Raise (PyError "TypeError" "unhashable type: 'slice'")
  | _ => Raise (PyError "TypeError" ("'" ++ type_name v ++ "' object is not subscriptable"))
  end.

End Py.

(* ================================================================= *)
(** ** The world outside the process *)

Module Env.
Import Py.

(** What [subprocess.run(argv, capture_output=True, text=True, cwd=...)]
    meets: the child ran to completion, or [run] itself raised (git not
    installed, working directory gone). *)
Inductive proc_outcome : Type :=
| Completed (returncode : Z) (stdout stderr : string)
| NotStarted (e : exn).

(** An entry of the template directory. *)
Inductive file : Type :=
| Text (content : string)
| Unreadable (e : exn).

(** The event log [github_events.json]: absent, present but [open] or
    [json.load] raises, or holding a JSON document. *)
Inductive events_file : Type :=
| Missing
| ReadError (e : exn)
| Loaded (v : json).

Record env : Type := {
  (** [roots_result.roots[i].uri.path] of the MCP session, or the exception
      [mcp.get_context()] / [list_roots()] raises. *)
  list_roots : result (list string);
  (** [os.getcwd()], which is also where a child without [cwd=] runs. *)
  getcwd : string;
  (** The git executable: working directory and argv to outcome. *)
  run : string -> list string -> proc_outcome;
  (** Name of a signal number in [signal.Signals], when it has one. *)
  signal_name : Z -> option string;
  (** [TEMPLATES_DIR]: entries in the order the directory lists them. *)
  templates_dir : list (string * file);
  (** [EVENTS_FILE] *)
  events : events_file
}.

Record CompletedProcess : Type := {
  returncode : Z;
  stdout : string;
  stderr : string
}.

(** [subprocess.run(argv, capture_output=True, text=True, check=check, cwd=cwd)] *)
Definition subprocess_run (E : env) (cwd : string) (argv : list string) (check : bool)
  : result CompletedProcess :=
  match run E cwd argv with
  | NotStarted e => Raise e
  | Completed rc out err =>
      if check && negb (rc =? 0)
      then Raise (CalledProcessError argv rc out err)
      else Return {| returncode := rc; stdout := out; stderr := err |}
  end.

Fixpoint find_file (name : string) (dir : list (string * file)) : option file :=
  match dir with
  | [] => None
  | (n, f) :: dir' => if String.eqb n name then Some f else find_file name dir'
  end.

(** [path.exists()] for [path = TEMPLATES_DIR / name] *)
Definition exists_ (E : env) (name : string) : bool :=
  match find_file name (templates_dir E) with Some _ => true | None => false end.

(** [open(TEMPLATES_DIR / name).read()] and [(TEMPLATES_DIR / name).read_text()];
    the message of FileNotFoundError shows the path below [TEMPLATES_DIR]. *)
Definition read_text (E : env) (name : string) : result string :=
  match find_file name (templates_dir E) with
  | Some (Text content) => Return content
  | Some (Unreadable e) => Raise e
  | None => Raise (PyError "FileNotFoundError"
                     ("[Errno 2] No such file or directory: '" ++ name ++ "'"))
  end.

(** [TEMPLATES_DIR.glob("*.md")]: the names ending in [.md]. *)
Definition glob_md (E : env) : list string :=
  List.filter (ends_with ".md") (List.map fst (templates_dir E)).

(** *** [repr] and [str] of what the handlers print *)

Definition DQUOTE : ascii := ascii_of_N 34.
Definition SQUOTE : ascii := ascii_of_N 39.
Definition BACKSLASH : ascii := ascii_of_N 92.

Fixpoint contains (c : ascii) (s : string) : bool :=
  match s with
  | EmptyString => false
  | String d s' => Ascii.eqb d c || contains c s'
  end.

Definition hex_digit (n : N) : ascii :=
  match String.get (N.to_nat n) "0123456789abcdef" with
  | Some c => c
  | None => "0"%char
  end.

(** Printable characters in the sense of [str.isprintable], below 256. *)
Definition is_printable (c : ascii) : bool :=
  let n := code c in
  ((32 <=? n) && (n <? 127) || (161 <=? n) && negb (n =? 173))%N.

Definition repr_char (quote c : ascii) : string :=
  if Ascii.eqb c quote || Ascii.eqb c BACKSLASH then String BACKSLASH (String c "")
  else if Ascii.eqb c TAB then "\t"
  else if Ascii.eqb c LF then "\n"
  else if Ascii.eqb c CR then "\r"
  else if is_printable c then String c ""
  else "\x" ++ String (hex_digit (code c / 16)) (String (hex_digit (code c mod 16)) "").

(** [repr(s)] of a str: single quotes unless [s] has one and no double
    quote. *)
Definition repr_str (s : string) : string :=
  let quote := if contains SQUOTE s && negb (contains DQUOTE s) then DQUOTE else SQUOTE in
  String quote
    (String.concat "" (List.map (repr_char quote) (list_ascii_of_string s))
       ++ String quote "").

(** [repr(argv)] of a list of str. *)
Definition repr_list (l : list string) : string :=
  "[" ++ String.concat ", " (List.map repr_str l) ++ "]".

(** [str(e)] *)
Definition str_exn (E : env) (e : exn) : string :=
  match e with
  | PyError _ text => text
  | CalledProcessError cmd rc _ _ =>
      if rc <? 0 then
        match signal_name E (- rc) with
        | Some name =>
            "Command '" ++ repr_list cmd ++ "' died with <Signals." ++ name ++ ": "
              ++ str_of_int (- rc) ++ ">."
        | None =>
            "Command '" ++ repr_list cmd ++ "' died with unknown signal "
              ++ str_of_int (- rc) ++ "."
        end
      else "Command '" ++ repr_list cmd ++ "' returned non-zero exit status "
             ++ str_of_int rc ++ "."
  end.

End Env.

(* ================================================================= *)
(** ** projects/unit3/build-mcp-server/starter/server.py *)

Module BuildMcpServer.
Import Py Env.

(** [p.stem] of a file name: the name without its last suffix. *)
Fixpoint rfind (c : ascii) (s : string) : option nat :=
  match s with
  | EmptyString => None
  | String d s' =>
      match rfind c s' with
      | Some i => Some (S i)
      | None => if Ascii.eqb d c then Some O else None
      end
  end.

Definition stem (name : string) : string :=
  match rfind "."%char name with
  | Some i => if ((0 <? i) && (i <? String.length name - 1))%nat
              then substring 0 i name else name
  | None => name
  end.

(** The working directory: the first MCP root, else the process's. *)
Definition working_directory (E : env) : string :=
  match list_roots E with
  | Return (root :: _) => root
  | Return [] => getcwd E
  | Raise _ => getcwd E
  end.

(** [[line.split("\t", 1)[-1] for line in files_changed if line]] *)
Definition paths_of (files_changed : list string) : list string :=
  List.map (fun line => last_item (split_once TAB line))
    (List.filter (fun line => negb (String.eqb line "")) files_changed).

(** Modelled from the spec: the right-hand side of
    [response["diff_truncated"] =] is missing from the source (the line ends
    after the equals sign); the spec makes it the plain boolean derived from
    the line-count comparison. *)
Definition diff_truncated (truncated : bool) : json := JBool truncated.

Definition analyze_file_changes (E : env)
    (base_branch : string) (include_diff : bool) (max_diff_lines : Z) : result json :=
  let working_directory := working_directory E in
  let body :=
    bind (subprocess_run E working_directory
            ["git"; "diff"; "--name-status"; base_branch] true) (fun result_files =>
    let files_changed := splitlines (strip (stdout result_files)) in
    let files := paths_of files_changed in
    let response :=
      [ ("files_changed", JArr (List.map JStr files));
        ("num_files_changed", JInt (Z.of_nat (List.length files)));
        ("used_working_directory", JStr working_directory) ] in
    if include_diff then
      bind (subprocess_run E working_directory ["git"; "diff"; base_branch] true)
        (fun result_diff =>
      let diff_lines := splitlines (stdout result_diff) in
      let '(diff_content, truncated) :=
        if Z.of_nat (List.length diff_lines) >? max_diff_lines
        then (join NL (slice_to max_diff_lines diff_lines), true)
        else (stdout result_diff, false) in
      Return (JObj (response ++
        [ ("diff", JStr diff_content);
          ("diff_truncated", diff_truncated truncated);
          ("diff_line_limit", JInt max_diff_lines) ])%list))
    else Return (JObj response)) in
  try_except body (fun e =>
    match e with
    | CalledProcessError _ _ _ _ =>
        Return (JObj [ ("error", JStr "Failed to analyze git changes");
                       ("details", JStr (str_exn E e)) ])
    | _ =>
        Return (JObj [ ("error", JStr "Unexpected error in analyze_file_changes");
                       ("details", JStr (str_exn E e)) ])
    end).

(** The loop shared by [get_pr_templates] and the fallback of
    [suggest_template]: one dict per [*.md] file. *)
Fixpoint read_templates (E : env) (names : list string) : result (list json) :=
  match names with
  | [] => Return []
  | template_file :: rest =>
      bind (read_text E template_file) (fun content =>
      bind (read_templates E rest) (fun templates =>
      Return (JObj [ ("filename", JStr template_file);
                     ("name", JStr (stem template_file));
                     ("content", JStr content) ] :: templates)))
  end.

Definition get_pr_templates (E : env) : result json :=
  try_except
    (bind (read_templates E (glob_md E)) (fun templates => Return (JArr templates)))
    (fun e => Return (JObj [ ("error", JStr "Failed to read templates");
                             ("details", JStr (str_exn E e)) ])).

Definition type_map : list (string * string) :=
  [ ("bug", "bug.md");
    ("feature", "feature.md");
    ("docs", "docs.md");
    ("documentation", "docs.md");
    ("refactor", "refactor.md");
    ("test", "test.md");
    ("performance", "performance.md");
    ("security", "security.md") ].

(** [table.get(key)] on a dict of str *)
Fixpoint lookup (key : string) (table : list (string * string)) : option string :=
  match table with
  | [] => None
  | (k, v) :: table' => if String.eqb k key then Some v else lookup key table'
  end.

Definition suggest_template (E : env) (changes_summary change_type : string) : result json :=
  let template_file := lookup (lower change_type) type_map in
  (* the [else] branch: every template, for manual selection *)
  let fallback :=
    bind (read_templates E (glob_md E)) (fun templates =>
    Return (JObj [ ("error", JStr ("Unknown change_type '" ++ change_type
                                     ++ "'. Returning all templates."));
                   ("templates", JArr templates) ])) in
  let body :=
    match template_file with
    | Some template_file =>
        (* [if template_file:] is the truth value of a str *)
        if negb (String.eqb template_file "") then
          if exists_ E template_file then
            bind (read_text E template_file) (fun content =>
            Return (JObj [ ("recommended_template", JStr template_file);
                           ("template_content", JStr content) ]))
          else Return (JObj [ ("error", JStr ("Template '" ++ template_file ++ "' not found.")) ])
        else fallback
    | None => fallback
    end in
  try_except body (fun e =>
    Return (JObj [ ("error", JStr "Failed to suggest template");
                   ("details", JStr (str_exn E e)) ])).

End BuildMcpServer.

(* ================================================================= *)
(** ** projects/unit3/github-actions-integration/starter/server.py *)

Module GithubActions.
Import Py Env.

Definition DEFAULT_TEMPLATES : list (string * string) :=
  [ ("bug.md", "Bug Fix");
    ("feature.md", "Feature");
    ("docs.md", "Documentation");
    ("refactor.md", "Refactor");
    ("test.md", "Test");
    ("performance.md", "Performance");
    ("security.md", "Security") ].

Definition TYPE_MAPPING : list (string * string) :=
  [ ("bug", "bug.md");
    ("fix", "bug.md");
    ("feature", "feature.md");
    ("enhancement", "feature.md");
    ("docs", "docs.md");
    ("documentation", "docs.md");
    ("refactor", "refactor.md");
    ("cleanup", "refactor.md");
    ("test", "test.md");
    ("testing", "test.md");
    ("performance", "performance.md");
    ("optimization", "performance.md");
    ("security", "security.md") ].

(** [table.get(key)] and [table.get(key, default)] on a dict of str *)
Fixpoint lookup (key : string) (table : list (string * string)) : option string :=
  match table with
  | [] => None
  | (k, v) :: table' => if String.eqb k key then Some v else lookup key table'
  end.

Definition lookup_default (key default : string) (table : list (string * string)) : string :=
  match lookup key table with Some v => v | None => default end.

(** *** Module 1 tools *)

(** The two lines appended to a truncated diff, after a blank line. *)
Definition truncation_notice (max_diff_lines : Z) (total : nat) : string :=
  (NL ++ NL ++ "... Output truncated. Showing " ++ str_of_int max_diff_lines ++ " of "
      ++ str_of_int (Z.of_nat total) ++ " lines ...")
  ++ (NL ++ "... Use max_diff_lines parameter to see more ...").

(** The [if include_diff:] block, given the child's stdout: the diff text,
    the [truncated] flag and [len(diff_lines)]. *)
Definition limit_diff (diff_stdout : string) (max_diff_lines : Z) : string * bool * nat :=
  let diff_lines := split LF diff_stdout in
  if Z.of_nat (List.length diff_lines) >? max_diff_lines
  then (join NL (slice_to max_diff_lines diff_lines)
          ++ truncation_notice max_diff_lines (List.length diff_lines),
        true, List.length diff_lines)
  else (diff_stdout, false, List.length diff_lines).

Definition analyze_file_changes (E : env)
    (base_branch : string) (include_diff : bool) (max_diff_lines : Z) : result json :=
  let cwd := getcwd E in
  let body :=
    bind (subprocess_run E cwd
            ["git"; "diff"; "--name-status"; base_branch ++ "...HEAD"] true) (fun files_result =>
    bind (subprocess_run E cwd
            ["git"; "diff"; "--stat"; base_branch ++ "...HEAD"] false) (fun stat_result =>
    bind (if include_diff
          then bind (subprocess_run E cwd ["git"; "diff"; base_branch ++ "...HEAD"] false)
                 (fun diff_result => Return (limit_diff (stdout diff_result) max_diff_lines))
          else Return ("", false, O)) (fun '(diff_content, truncated, total_diff_lines) =>
    bind (subprocess_run E cwd
            ["git"; "log"; "--oneline"; base_branch ++ "..HEAD"] false) (fun commits_result =>
    Return (JObj
      [ ("base_branch", JStr base_branch);
        ("files_changed", JStr (stdout files_result));
        ("statistics", JStr (stdout stat_result));
        ("commits", JStr (stdout commits_result));
        ("diff", JStr (if include_diff then diff_content
                       else "Diff not included (set include_diff=true to see full diff)"));
        ("truncated", JBool truncated);
        ("total_diff_lines", JInt (if include_diff then Z.of_nat total_diff_lines else 0)) ]))))) in
  try_except body (fun e =>
    match e with
    | CalledProcessError _ _ _ e_stderr =>
        Return (JObj [ ("error", JStr ("Git error: " ++ e_stderr)) ])
    | _ => Return (JObj [ ("error", JStr (str_exn E e)) ])
    end).

(** The list comprehension of [get_pr_templates]: one [read_text] per entry
    of [DEFAULT_TEMPLATES], in order; the first failure ends it. *)
Fixpoint read_templates (E : env) (table : list (string * string)) : result (list json) :=
  match table with
  | [] => Return []
  | (filename, template_type) :: rest =>
      bind (read_text E filename) (fun content =>
      bind (read_templates E rest) (fun templates =>
      Return (JObj [ ("filename", JStr filename);
                     ("type", JStr template_type);
                     ("content", JStr content) ] :: templates)))
  end.

(** No handler here: what [read_text] raises leaves the tool. *)
Definition get_pr_templates (E : env) : result json :=
  bind (read_templates E DEFAULT_TEMPLATES) (fun templates => Return (JArr templates)).

(** [v[0]] *)
Definition first (v : json) : result json :=
  match v with
  | JArr (x :: _) => Return x
  | JArr [] => Raise (PyError "IndexError" "list index out of range")
  | JStr (String c _) => Return (JStr (String c ""))
  | JStr EmptyString => Raise (PyError "IndexError" "string index out of range")
  | JObj _ => Raise (PyError "KeyError" "0")
  | _ => Raise (PyError "TypeError" ("'" ++ type_name v ++ "' object is not subscriptable"))
  end.

(** [v[k]] for a str [k] *)
Definition subscript (k : string) (v : json) : result json :=
  match v with
  | JObj d =>
      match dict_get k d with
      | Some x => Return x
      | None => Raise (PyError "KeyError" (repr_str k))
      end
  | JArr _ => Raise (PyError "TypeError" "list indices must be integers or slices, not str")
  | JStr _ => Raise (PyError "TypeError" "string indices must be integers, not 'str'")
  | _ => Raise (PyError "TypeError" ("'" ++ type_name v ++ "' object is not subscriptable"))
  end.

(** [next((t for t in templates if t["filename"] == template_file), default)] *)
Fixpoint next_match (template_file : string) (templates : list json) (default : json)
  : result json :=
  match templates with
  | [] => Return default
  | t :: rest =>
      bind (subscript "filename" t) (fun filename =>
      if py_eq filename (JStr template_file) then Return t
      else next_match template_file rest default)
  end.

(** [json.loads(json.dumps(v))] gives [v] back. *)
Definition json_loads (response : json) : json := response.

Definition suggest_template (E : env) (changes_summary change_type : string) : result json :=
  bind (get_pr_templates E) (fun templates_response =>
  let templates := json_loads templates_response in
  let template_file := lookup_default (lower change_type) "feature.md" TYPE_MAPPING in
  bind (iterate templates) (fun items =>
  bind (first templates) (fun default =>
  bind (next_match template_file items default) (fun selected_template =>
  bind (subscript "content" selected_template) (fun content =>
  Return (JObj
    [ ("recommended_template", selected_template);
      ("reasoning", JStr ("Based on your analysis: '" ++ changes_summary
                            ++ "', this appears to be a " ++ change_type ++ " change."));
      ("template_content", content);
      ("usage_hint", JStr "Claude can help you fill out this template based on the specific changes in your PR.") ])))))).

(** *** Module 2 tools *)

(** [json.load(open(EVENTS_FILE))] once [EVENTS_FILE.exists()] held. *)
Definition load_events (E : env) : result json :=
  match events E with
  | Loaded v => Return v
  | ReadError e => Raise e
  | Missing => Raise (PyError "FileNotFoundError"
                        "[Errno 2] No such file or directory: 'github_events.json'")
  end.

Definition exists_events (E : env) : bool :=
  match events E with Missing => false | _ => true end.

Definition get_recent_actions_events (E : env) (limit : Z) : result json :=
  try_except
    (if negb (exists_events E) then Return (JArr [])
     else bind (load_events E) (fun events => subscript_from (- limit) events))
    (fun e => Return (JObj [ ("error", JStr ("Failed to read events: " ++ str_exn E e)) ])).

(** A dict, as [e.get] needs one. *)
Definition dict : Type := list (string * json).

(** [e.get]: only a dict has the method. *)
Definition as_dict (e : json) : result dict :=
  match e with
  | JObj d => Return d
  | _ => Raise (PyError "AttributeError"
                  ("'" ++ type_name e ++ "' object has no attribute 'get'"))
  end.

(** [[e for e in events if e.get("event") == "workflow_run"]], over the
    items [for e in events] yields. *)
Fixpoint workflow_run_events (items : list json) : result (list dict) :=
  match items with
  | [] => Return []
  | e :: rest =>
      bind (as_dict e) (fun d =>
      bind (workflow_run_events rest) (fun kept =>
      Return (if py_eq (get "event" d) (JStr "workflow_run") then d :: kept else kept)))
  end.

(** [if workflow_name: workflow_events = [e for e in workflow_events
      if e.get("workflow_name") == workflow_name]] *)
Definition filter_by_name (workflow_name : option string) (workflow_events : list dict)
  : list dict :=
  match workflow_name with
  | Some n =>
      if negb (String.eqb n "")
      then List.filter (fun e => py_eq (get "workflow_name" e) (JStr n)) workflow_events
      else workflow_events
  | None => workflow_events
  end.

(** [latest_status]: keys [(name,)] to entries, in insertion order. *)
Definition status_table : Type := list (json * dict).

(** [latest_status[key]] when [key in latest_status] *)
Fixpoint find_key (name : json) (latest_status : status_table) : option dict :=
  match latest_status with
  | [] => None
  | (k, v) :: rest => if py_eq k name then Some v else find_key name rest
  end.

(** [latest_status[key] = v]: an existing key keeps its place. *)
Fixpoint set_key (name : json) (v : dict) (latest_status : status_table) : status_table :=
  match latest_status with
  | [] => [(name, v)]
  | (k, w) :: rest =>
      if py_eq k name then (k, v) :: rest else (k, w) :: set_key name v rest
  end.

(** The dict stored for an event. *)
Definition entry_of (event : dict) : dict :=
  [ ("workflow_name", get_default "workflow_name" (JStr "unknown") event);
    ("run_id", get "run_id" event);
    ("status", get "status" event);
    ("conclusion", get "conclusion" event);
    ("updated_at", get "updated_at" event) ].

(** One turn of [for event in workflow_events]. *)
Definition step (latest_status : status_table) (event : dict) : result status_table :=
  let name := get_default "workflow_name" (JStr "unknown") event in
  let updated_at := get "updated_at" event in
  if negb (hashable name) then Raise (unhashable name)
  else
    match find_key name latest_status with
    | None => Return (set_key name (entry_of event) latest_status)
    | Some candidate =>
        if truthy updated_at then
          bind (py_lt (get_default "updated_at" (JStr "") candidate) updated_at)
            (fun newer =>
               if newer then Return (set_key name (entry_of event) latest_status)
               else Return latest_status)
        else Return latest_status
    end.

Fixpoint reduce (latest_status : status_table) (workflow_events : list dict)
  : result status_table :=
  match workflow_events with
  | [] => Return latest_status
  | event :: rest => bind (step latest_status event) (fun st => reduce st rest)
  end.

(** [list(latest_status.values())] *)
Definition values (latest_status : status_table) : list json :=
  List.map (fun kv => JObj (snd kv)) latest_status.

Definition get_workflow_status (E : env) (workflow_name : option string) : result json :=
  try_except
    (if negb (exists_events E) then Return (JArr [])
     else
       bind (load_events E) (fun events =>
       bind (iterate events) (fun items =>
       bind (workflow_run_events items) (fun workflow_events =>
       let workflow_events := filter_by_name workflow_name workflow_events in
       bind (reduce [] workflow_events) (fun latest_status =>
       Return (JArr (values latest_status)))))))
    (fun e => Return (JObj [ ("error", JStr ("Failed to get workflow status: " ++ str_exn E e)) ])).

End GithubActions.

(* ================================================================= *)
(** * Properties *)

Import Py Env.

(** ** Vocabulary of the statements *)

(** A text without line feed: one item of [split LF]. *)
Fixpoint no_newline (s : string) : bool :=
  match s with
  | EmptyString => true
  | String c s' => negb (Ascii.eqb c LF) && no_newline s'
  end.

(** The four git commands of [GithubActions.analyze_file_changes] ran to
    completion with these outputs, the first with exit status 0. *)
Definition git_ran (E : env) (base_branch names stat diff log : string) : Prop :=
  (exists err, run E (getcwd E) ["git"; "diff"; "--name-status"; base_branch ++ "...HEAD"]
               = Completed 0 names err) /\
  (exists rc err, run E (getcwd E) ["git"; "diff"; "--stat"; base_branch ++ "...HEAD"]
                  = Completed rc stat err) /\
  (exists rc err, run E (getcwd E) ["git"; "diff"; base_branch ++ "...HEAD"]
                  = Completed rc diff err) /\
  (exists rc err, run E (getcwd E) ["git"; "log"; "--oneline"; base_branch ++ "..HEAD"]
                  = Completed rc log err).

(** The report [GithubActions.analyze_file_changes] encodes on success. *)
Definition analysis (base_branch names stat log diff : string) (truncated : bool)
    (total_diff_lines : Z) : json :=
  JObj [ ("base_branch", JStr base_branch);
         ("files_changed", JStr names);
         ("statistics", JStr stat);
         ("commits", JStr log);
         ("diff", JStr diff);
         ("truncated", JBool truncated);
         ("total_diff_lines", JInt total_diff_lines) ].


(** "The last [n] entries" of a list. *)
Definition last_n {A : Type} (n : nat) (xs : list A) : list A :=
  skipn (List.length xs - n) xs.

(** A template file is present and readable. *)
Definition readable (E : env) (name content : string) : Prop :=
  find_file name (templates_dir E) = Some (Text content).

(** Every file of [GithubActions.DEFAULT_TEMPLATES] is present and readable. *)
Definition defaults_readable (E : env) : Prop :=
  Forall (fun ft => exists content, readable E (fst ft) content)
    GithubActions.DEFAULT_TEMPLATES.

(** A tool returned an error object. *)
Definition is_error_object_result (r : result json) : Prop :=
  exists fields text, r = Return (JObj fields) /\ dict_get "error" fields = Some (JStr text).

(** One item of the list [GithubActions.get_pr_templates] encodes. *)
Definition template (filename label content : string) : json :=
  JObj [ ("filename", JStr filename); ("type", JStr label); ("content", JStr content) ].

(** The object [GithubActions.suggest_template] encodes. *)
Definition suggestion (selected_template : json) (content changes_summary change_type : string)
  : json :=
  JObj [ ("recommended_template", selected_template);
         ("reasoning", JStr ("Based on your analysis: '" ++ changes_summary
                               ++ "', this appears to be a " ++ change_type ++ " change."));
         ("template_content", JStr content);
         ("usage_hint", JStr "Claude can help you fill out this template based on the specific changes in your PR.") ].


(** [name] in the loop of [get_workflow_status]: the group of an event. *)
Definition name_of (event : GithubActions.dict) : json :=
  get_default "workflow_name" (JStr "unknown") event.

(** The events the loop of [get_workflow_status] runs over: the logged
    workflow_run events that pass the optional name filter (none when the
    log is missing or the comprehensions raise). *)
Definition selected_events (E : env) (workflow_name : option string)
  : list GithubActions.dict :=
  match events E with
  | Loaded v =>
      match iterate v with
      | Return items =>
          match GithubActions.workflow_run_events items with
          | Return workflow_events =>
              GithubActions.filter_by_name workflow_name workflow_events
          | Raise _ => []
          end
      | Raise _ => []
      end
  | _ => []
  end.

(** Invariant of the loop of [get_workflow_status], after the events [seen]:
    every stored entry is the projection of a seen event of the key's
    group, no two keys are equal, and every seen event has its key. *)
Definition table_ok (seen : list GithubActions.dict) (st : GithubActions.status_table)
  : Prop :=
  Forall (fun kv => hashable (fst kv) = true
                    /\ exists e, In e seen /\ snd kv = GithubActions.entry_of e
                                 /\ py_eq (fst kv) (name_of e) = true) st
  /\ ForallOrdPairs (fun a b => py_eq a b = false) (List.map fst st)
  /\ Forall (fun e => exists k, In k (List.map fst st) /\ py_eq k (name_of e) = true) seen.

(** An event with a str [workflow_name] (or none, which reads "unknown")
    and a str [updated_at]. *)
Definition stamped (e : GithubActions.dict) : Prop :=
  exists n s, name_of e = JStr n /\ get "updated_at" e = JStr s.

(** [e'] is stamped no earlier than [e], as strings. *)
Definition not_older (e' e : GithubActions.dict) : Prop :=
  forall s' s, get "updated_at" e' = JStr s' -> get "updated_at" e = JStr s ->
               String.ltb s' s = false.

(** Invariant of the loop over stamped events: the entry of a group is the
    projection of a seen event of the group, and no seen event of the
    group is stamped later than it. *)
Definition latest_ok (seen : list GithubActions.dict) (st : GithubActions.status_table)
  : Prop :=
  (forall n c, GithubActions.find_key (JStr n) st = Some c ->
               exists e', In e' seen /\ c = GithubActions.entry_of e' /\ name_of e' = JStr n)
  /\ (forall e, In e seen ->
         exists e', GithubActions.find_key (name_of e) st = Some (GithubActions.entry_of e')
                    /\ In e' seen /\ name_of e' = name_of e /\ not_older e' e).

(** A field of an encoded object. *)
Definition field (k : string) (v : json) : option json :=
  match v with
  | JObj fields => dict_get k fields
  | _ => None
  end.

(** The keys of an encoded object. *)
Definition keys (v : json) : list string :=
  match v with
  | JObj fields => List.map fst fields
  | _ => []
  end.

(** ** Vocabulary of the further properties *)

(** The child ran to completion, whatever its exit status. *)
Definition completed (o : proc_outcome) : bool :=
  match o with
  | Completed _ _ _ => true
  | NotStarted _ => false
  end.

(** The child ran to completion with exit status 0. *)
Definition succeeded (o : proc_outcome) : bool :=
  match o with
  | Completed rc _ _ => rc =? 0
  | NotStarted _ => false
  end.

(** The four argv lists of [GithubActions.analyze_file_changes]. *)
Definition names_argv (base_branch : string) : list string :=
  ["git"; "diff"; "--name-status"; base_branch ++ "...HEAD"].
Definition stat_argv (base_branch : string) : list string :=
  ["git"; "diff"; "--stat"; base_branch ++ "...HEAD"].
Definition diff_argv (base_branch : string) : list string :=
  ["git"; "diff"; base_branch ++ "...HEAD"].
Definition log_argv (base_branch : string) : list string :=
  ["git"; "log"; "--oneline"; base_branch ++ "..HEAD"].

(** The commands [GithubActions.analyze_file_changes] may run. *)
Definition commands (base_branch : string) (include_diff : bool) : list (list string) :=
  ([names_argv base_branch; stat_argv base_branch]
     ++ (if include_diff then [diff_argv base_branch] else [])
     ++ [log_argv base_branch])%list.

(** What decides between report and error in
    [GithubActions.analyze_file_changes]: the first command must exit with
    status 0, the others only have to run. *)
Definition git_usable (E : env) (base_branch : string) (include_diff : bool) : bool :=
  succeeded (run E (getcwd E) (names_argv base_branch))
  && completed (run E (getcwd E) (stat_argv base_branch))
  && (negb include_diff || completed (run E (getcwd E) (diff_argv base_branch)))
  && completed (run E (getcwd E) (log_argv base_branch)).

(** A tool returned an object without [error] key. *)
Definition is_report_result (r : result json) : Prop :=
  exists fields, r = Return (JObj fields) /\ dict_get "error" fields = None.

(** One item of the list [BuildMcpServer.get_pr_templates] encodes. *)
Definition build_template (filename content : string) : json :=
  JObj [ ("filename", JStr filename);
         ("name", JStr (BuildMcpServer.stem filename));
         ("content", JStr content) ].

(** Every character of [s] satisfies [p]. *)
Fixpoint all_chars (p : ascii -> bool) (s : string) : bool :=
  match s with
  | EmptyString => true
  | String c s' => p c && all_chars p s'
  end.

(** [s] is not empty and its last character is no whitespace. *)
Fixpoint ends_visible (s : string) : bool :=
  match s with
  | EmptyString => false
  | String c EmptyString => negb (is_space c)
  | String _ s' => ends_visible s'
  end.

(** A line of [git diff --name-status]: a status code, a tab, a path. *)
Definition name_status_line (entry : string * string) : string :=
  fst entry ++ String TAB (snd entry).

(** The output of [git diff --name-status]: every line ends in a line feed. *)
Definition name_status_output (entries : list (string * string)) : string :=
  String.concat "" (List.map (fun entry => name_status_line entry ++ NL) entries).

(** A status code without whitespace (M, A, D, R100, ...) and a path
    without line break that does not end in whitespace. *)
Definition well_formed (entry : string * string) : Prop :=
  fst entry <> ""
  /\ all_chars (fun c => negb (is_space c)) (fst entry) = true
  /\ all_chars (fun c => negb (is_linebreak c)) (snd entry) = true
  /\ ends_visible (snd entry) = true.

(** The argv lists of [BuildMcpServer.analyze_file_changes]. *)
Definition build_names_argv (base_branch : string) : list string :=
  ["git"; "diff"; "--name-status"; base_branch].
Definition build_diff_argv (base_branch : string) : list string :=
  ["git"; "diff"; base_branch].

(** What decides between report and error in
    [BuildMcpServer.analyze_file_changes]: every command it runs must exit
    with status 0. *)
Definition build_git_usable (E : env) (base_branch : string) (include_diff : bool) : bool :=
  succeeded (run E (BuildMcpServer.working_directory E) (build_names_argv base_branch))
  && (negb include_diff
      || succeeded (run E (BuildMcpServer.working_directory E) (build_diff_argv base_branch))).

(** The number of line feeds in a text. *)
Fixpoint newlines (s : string) : nat :=
  match s with
  | EmptyString => O
  | String c s' => ((if Ascii.eqb c LF then 1 else 0) + newlines s')%nat
  end.




(** The names of a list in the order of their first occurrence, after the
    names [acc] already met. *)
Fixpoint first_occurrences (acc names : list string) : list string :=
  match names with
  | [] => acc
  | n :: rest =>
      first_occurrences (if existsb (String.eqb n) acc then acc else (acc ++ [n])%list) rest
  end.

(** The group of an event, when it is a str. *)
Definition name_text (e : GithubActions.dict) : string :=
  match name_of e with
  | JStr n => n
  | _ => ""
  end.

(** The part of the status table stored under the name [n]. *)
Definition restrict (n : string) (st : GithubActions.status_table)
  : GithubActions.status_table :=
  List.filter (fun kv => py_eq (fst kv) (JStr n)) st.

(** An entry of the answer carries the workflow name [n]. *)
Definition named (n : string) (entry : json) : bool :=
  match field "workflow_name" entry with
  | Some x => py_eq x (JStr n)
  | None => false
  end.

(** The world [E] with another content of the event log. *)
Definition with_events (E : env) (log : events_file) : env :=
  {| list_roots := list_roots E;
     getcwd := getcwd E;
     run := run E;
     signal_name := signal_name E;
     templates_dir := templates_dir E;
     events := log |}.

(** The text is empty or ends in a line feed: each of its lines is
    terminated, as in the output of git. *)
Fixpoint terminated (s : string) : bool :=
  match s with
  | EmptyString => true
  | String c EmptyString => Ascii.eqb c LF
  | String _ s' => terminated s'
  end.

(** The lines of a text: the pieces between its line feeds, where a final
    line feed ends the last line and opens no further one.  The empty text
    has no line. *)
Definition text_lines (s : string) : list string :=
  if terminated s then removelast (split LF s) else split LF s.

(** One entry of the list [get_workflow_status] answers with. *)
Definition status_entry (workflow_name run_id status conclusion updated_at : json) : json :=
  JObj [ ("workflow_name", workflow_name);
         ("run_id", run_id);
         ("status", status);
         ("conclusion", conclusion);
         ("updated_at", updated_at) ].

(** ** Sample worlds *)

Module Sample.

Definition arg (i : nat) (argv : list string) : string := nth i argv "".

(** A repository with two changed files, whose diff has three lines. *)
Definition names : string := "M" ++ String TAB "server.py" ++ NL ++ "A" ++ String TAB "README.md" ++ NL.
Definition stat : string := " server.py | 2 +-".
Definition diff : string := "a" ++ NL ++ "b" ++ NL ++ "c".
Definition log : string := "1a2b3c4 edit server".

(** git, told apart by its subcommand and first option. *)
Definition git (cwd : string) (argv : list string) : proc_outcome :=
  if String.eqb (arg 1 argv) "log" then Completed 0 log ""
  else if String.eqb (arg 2 argv) "--name-status" then Completed 0 names ""
  else if String.eqb (arg 2 argv) "--stat" then Completed 0 stat ""
  else Completed 0 diff "".

(** The same repository seen through a git whose plain [git diff] fails
    with status 128 (the other commands answer as above). *)
Definition git_diff_fails (cwd : string) (argv : list string) : proc_outcome :=
  if String.eqb (arg 1 argv) "diff"
     && negb (String.eqb (arg 2 argv) "--name-status")
     && negb (String.eqb (arg 2 argv) "--stat")
  then Completed 128 "" "fatal: bad revision"
  else git cwd argv.

(** The seven templates of [DEFAULT_TEMPLATES], all readable. *)
Definition all_templates : list (string * file) :=
  List.map (fun ft => (fst ft, Text ("## " ++ snd ft))) GithubActions.DEFAULT_TEMPLATES.

(** A world with that repository, no MCP roots, a template directory and
    an event log. *)
Definition world (dir : list (string * file)) (log : events_file) : env :=
  {| list_roots := Raise (PyError "LookupError" "no request context");
     getcwd := "/repo";
     run := git;
     signal_name := fun _ => None;
     templates_dir := dir;
     events := log |}.

(** The same diff as git prints it, each line ended by a line feed. *)
Definition patch : string := "a" ++ NL ++ "b" ++ NL ++ "c" ++ NL.

Definition git_patch (cwd : string) (argv : list string) : proc_outcome :=
  if String.eqb (arg 1 argv) "diff"
     && negb (String.eqb (arg 2 argv) "--name-status")
     && negb (String.eqb (arg 2 argv) "--stat")
  then Completed 0 patch ""
  else git cwd argv.

(** The world whose [git diff] prints [patch]. *)
Definition world_patch (dir : list (string * file)) (log : events_file) : env :=
  {| list_roots := Raise (PyError "LookupError" "no request context");
     getcwd := "/repo";
     run := git_patch;
     signal_name := fun _ => None;
     templates_dir := dir;
     events := log |}.

(** The world with the failing [git diff]. *)
Definition world_diff_fails (dir : list (string * file)) (log : events_file) : env :=
  {| list_roots := Raise (PyError "LookupError" "no request context");
     getcwd := "/repo";
     run := git_diff_fails;
     signal_name := fun _ => None;
     templates_dir := dir;
     events := log |}.

(** A workflow_run event, as the dict [json.load] gives. *)
Definition run_fields (name : string) (run_id : Z) (updated_at : option string)
  : GithubActions.dict :=
  ([ ("event", JStr "workflow_run");
     ("workflow_name", JStr name);
     ("run_id", JInt run_id);
     ("status", JStr "completed");
     ("conclusion", JStr "success") ]
   ++ match updated_at with
      | Some t => [ ("updated_at", JStr t) ]
      | None => []
      end)%list.

Definition run_event (name : string) (run_id : Z) (updated_at : option string) : json :=
  JObj (run_fields name run_id updated_at).

(** A workflow_run event without a [workflow_name]. *)
Definition unnamed_fields : GithubActions.dict :=
  [ ("event", JStr "workflow_run"); ("run_id", JInt 7); ("status", JStr "queued") ].

Definition jan1 : string := "2024-01-01T00:00:00Z".
Definition jan2 : string := "2024-01-02T00:00:00Z".

(** Two runs of "CI" with a push event between them. *)
Definition two_runs : list json :=
  [ run_event "CI" 1 (Some jan1); JObj [ ("event", JStr "push") ];
    run_event "CI" 2 (Some jan2) ].

(** A run without [updated_at] between two stamped runs of the same name. *)
Definition stamped_first : list json :=
  [ run_event "CI" 1 (Some jan1); run_event "CI" 2 None; run_event "CI" 3 (Some jan2) ].

(** A run without [updated_at] first, then a stamped run of the same name. *)
Definition unstamped_first : list json :=
  [ run_event "CI" 1 None; run_event "CI" 2 (Some jan2) ].

(** A run without [updated_at], then one whose [updated_at] is the empty str. *)
Definition empty_stamp : list json :=
  [ run_event "CI" 1 None; run_event "CI" 2 (Some "") ].

(** The run of the spec's example: no [run_id], no [updated_at]. *)
Definition ci_fields : GithubActions.dict :=
  [ ("event", JStr "workflow_run"); ("workflow_name", JStr "CI");
    ("status", JStr "completed"); ("conclusion", JStr "success") ].

(** A run that has only its [event] field. *)
Definition bare_fields : GithubActions.dict := [ ("event", JStr "workflow_run") ].

(** Runs of two workflows, interleaved. *)
Definition mixed_runs : list json :=
  [ run_event "CI" 1 (Some jan1); run_event "Deploy" 2 (Some jan1);
    run_event "CI" 3 (Some jan2) ].


End Sample.

(** ** Text lemmas: [split] and [join] *)


Lemma split_nonempty (sep : ascii) (s : string) : split sep s <> [].
Proof.
  induction s as [|c s IH]; simpl; [discriminate|].
  destruct (Ascii.eqb c sep); [discriminate|].
  destruct (split sep s); discriminate.
Qed.



Lemma split_single (a : string) : no_newline a = true -> split LF a = [a].
Proof.
  induction a as [|c a IH]; simpl; intros Ha; [reflexivity|].
  apply andb_true_iff in Ha as [Hc Ha].
  apply negb_true_iff in Hc. rewrite Hc, (IH Ha). reflexivity.
Qed.

Lemma append_assoc (a b c : string) : ((a ++ b) ++ c = a ++ (b ++ c))%string.
Proof. induction a as [|x a IH]; simpl; [reflexivity | now rewrite IH]. Qed.




(** ** Diff truncation *)





Lemma limit_diff_spec (raw : string) (M : Z) :
  let lines := split LF raw in
  GithubActions.limit_diff raw M
  = if Z.of_nat (List.length lines) >? M
    then (join NL (slice_to M lines)
            ++ GithubActions.truncation_notice M (List.length lines),
          true, List.length lines)
    else (raw, false, List.length lines).
Proof. reflexivity. Qed.








Lemma sample_git_ran (dir : list (string * file)) (ev : events_file) :
  git_ran (Sample.world dir ev) "main" Sample.names Sample.stat Sample.diff Sample.log.
Proof. repeat split; repeat eexists; reflexivity. Defined.




(** Where the law above is silent: git ends every line with a line feed,
    [split] then yields one item more than the diff has lines, and a
    three-line diff asked for with [max_diff_lines = 3] comes back without
    its final line feed and with the notice "Showing 3 of 4 lines".  The
    build-mcp-server variant, which counts with [splitlines], returns the
    same diff as it is. *)
Lemma final_line_feed_counts_as_line :
  text_lines Sample.patch = ["a"; "b"; "c"]
  /\ GithubActions.analyze_file_changes (Sample.world_patch [] Missing) "main" true 3
     = Return (analysis "main" Sample.names Sample.stat Sample.log
                 ("a" ++ NL ++ "b" ++ NL ++ "c" ++ GithubActions.truncation_notice 3 4)
                 true 4)
  /\ (exists fields,
        BuildMcpServer.analyze_file_changes (Sample.world_patch [] Missing) "main" true 3
        = Return (JObj fields)
        /\ dict_get "diff" fields = Some (JStr Sample.patch)).
Proof.
  repeat split; try reflexivity.
  eexists. split; reflexivity.
Qed.

(** The build-mcp-server variant of the truncation: the first
    [max_diff_lines] lines of [splitlines], joined, with no notice. *)
Lemma build_analyze_file_changes_with_diff :
  forall (E : env) (base_branch names err1 raw err2 : string) (M : Z),
    run E (BuildMcpServer.working_directory E)
      ["git"; "diff"; "--name-status"; base_branch] = Completed 0 names err1 ->
    run E (BuildMcpServer.working_directory E)
      ["git"; "diff"; base_branch] = Completed 0 raw err2 ->
    let files := BuildMcpServer.paths_of (splitlines (strip names)) in
    let lines := splitlines raw in
    let cut := Z.of_nat (List.length lines) >? M in
    BuildMcpServer.analyze_file_changes E base_branch true M
    = Return (JObj [ ("files_changed", JArr (List.map JStr files));
                     ("num_files_changed", JInt (Z.of_nat (List.length files)));
                     ("used_working_directory", JStr (BuildMcpServer.working_directory E));
                     ("diff", JStr (if cut then join NL (slice_to M lines) else raw));
                     ("diff_truncated", BuildMcpServer.diff_truncated cut);
                     ("diff_line_limit", JInt M) ]).
Proof.
  intros E base names err1 raw err2 M H1 H2 files lines cut.
  unfold BuildMcpServer.analyze_file_changes, subprocess_run.
  rewrite H1. simpl. rewrite H2. simpl. fold lines. fold cut.
  destruct cut; reflexivity.
Qed.

(** ** Recent events *)

Lemma slice_from_skipn {A : Type} (start : Z) (xs : list A) :
  0 <= start -> slice_from start xs = skipn (Z.to_nat start) xs.
Proof.
  intros Hs. unfold slice_from, clamp.
  destruct (Z.ltb_spec start 0); [lia|].
  destruct (Z.le_ge_cases start (Z.of_nat (List.length xs))).
  - now rewrite Z.min_l by lia.
  - rewrite Z.min_r by lia. rewrite Nat2Z.id.
    rewrite !skipn_all2; auto; lia.
Qed.

Lemma slice_from_last_n {A : Type} (n : Z) (xs : list A) :
  1 <= n -> slice_from (- n) xs = last_n (Z.to_nat n) xs.
Proof.
  intros Hn. unfold slice_from, last_n, clamp.
  destruct (Z.ltb_spec (- n) 0); [|lia]. f_equal. lia.
Qed.

Lemma recent_events_loaded (E : env) (log : list json) (limit : Z) :
  events E = Loaded (JArr log) ->
  GithubActions.get_recent_actions_events E limit
  = Return (JArr (slice_from (- limit) log)).
Proof.
  intros H. unfold GithubActions.get_recent_actions_events,
    GithubActions.exists_events, GithubActions.load_events.
  rewrite H. reflexivity.
Qed.

(** For a limit of at least 1 the tool returns the last [limit] entries of
    the stored array, in their stored order (all of them when the log is
    shorter); a missing log file gives the empty array. *)
Lemma recent_events_positive_limit :
  forall (E : env) (limit : Z),
    (events E = Missing ->
     GithubActions.get_recent_actions_events E limit = Return (JArr []))
    /\ (forall log, events E = Loaded (JArr log) -> 1 <= limit ->
        GithubActions.get_recent_actions_events E limit
        = Return (JArr (last_n (Z.to_nat limit) log))).
Proof.
  intros E limit. split.
  - intros H. unfold GithubActions.get_recent_actions_events,
      GithubActions.exists_events. now rewrite H.
  - intros log H Hl. rewrite (recent_events_loaded E log limit H).
    now rewrite slice_from_last_n.
Qed.

(** C7 at its failing input: with the log [[e1, e2]] on disk and
    [limit = 0] the tool returns both events, where "the last 0 entries"
    is the empty array; the empty log and a missing file do give []. *)
Theorem recent_events_limit_zero_returns_all :
  GithubActions.get_recent_actions_events
    (Sample.world []
       (Loaded (JArr [ Sample.run_event "CI" 1 None; Sample.run_event "CI" 2 None ]))) 0
  = Return (JArr [ Sample.run_event "CI" 1 None; Sample.run_event "CI" 2 None ])
  /\ last_n 0 [ Sample.run_event "CI" 1 None; Sample.run_event "CI" 2 None ] = []
  /\ GithubActions.get_recent_actions_events (Sample.world [] (Loaded (JArr []))) 5
     = Return (JArr [])
  /\ GithubActions.get_recent_actions_events (Sample.world [] Missing) 5
     = Return (JArr []).
Proof. repeat split; reflexivity. Qed.

(** C9: with the log array [log] on disk, [limit = 0] returns the whole
    array (so a non-empty log does not give the empty result), because
    [events[-0:]] is [events[0:]]; and a negative limit returns the log
    without its first [|limit|] events. *)
Theorem recent_events_nonpositive_limit :
  forall (E : env) (log : list json),
    events E = Loaded (JArr log) ->
    GithubActions.get_recent_actions_events E 0 = Return (JArr log)
    /\ (log <> [] ->
        GithubActions.get_recent_actions_events E 0 <> Return (JArr (last_n 0 log)))
    /\ (forall limit, limit < 0 ->
        GithubActions.get_recent_actions_events E limit
        = Return (JArr (skipn (Z.to_nat (Z.abs limit)) log))).
Proof.
  intros E log H. split; [|split].
  - rewrite (recent_events_loaded E log 0 H).
    now rewrite slice_from_skipn by reflexivity.
  - intros Hne. rewrite (recent_events_loaded E log 0 H).
    rewrite slice_from_skipn by reflexivity. simpl skipn.
    unfold last_n. rewrite Nat.sub_0_r, skipn_all.
    destruct log; [contradiction | discriminate].
  - intros limit Hl. rewrite (recent_events_loaded E log limit H).
    rewrite slice_from_skipn by lia. do 3 f_equal. lia.
Qed.

(** The whole log at limit 0, and all but the first two events at limit -2. *)
Lemma recent_events_nonpositive_limit_witness :
  GithubActions.get_recent_actions_events
    (Sample.world []
       (Loaded (JArr [ JInt 1; JInt 2; JInt 3 ]))) 0
  = Return (JArr [ JInt 1; JInt 2; JInt 3 ])
  /\ GithubActions.get_recent_actions_events
       (Sample.world []
          (Loaded (JArr [ JInt 1; JInt 2; JInt 3 ]))) (-2)
     = Return (JArr [ JInt 3 ]).
Proof.
  destruct (recent_events_nonpositive_limit
              (Sample.world [] (Loaded (JArr [ JInt 1; JInt 2; JInt 3 ])))
              [ JInt 1; JInt 2; JInt 3 ] eq_refl) as (H0 & _ & Hneg).
  split; [exact H0|].
  exact (Hneg (-2) ltac:(reflexivity)).
Defined.

(** ** Exceptions at the tool boundary *)

Lemma try_except_returns {A : Type} (body : result A) (handler : exn -> result A) :
  (forall e, exists v, handler e = Return v) ->
  exists v, try_except body handler = Return v.
Proof.
  intros H. destruct body as [a|e]; simpl; [now exists a | apply H].
Qed.

(** A tool whose body stands in [try ... except Exception], with handlers
    that only build an error object, returns on every input and in every
    world: the three tools of the build-mcp-server module and
    [analyze_file_changes], [get_recent_actions_events] and
    [get_workflow_status] of the github-actions module. *)
Lemma guarded_tools_return :
  forall (E : env),
    (forall b i m, exists v, BuildMcpServer.analyze_file_changes E b i m = Return v)
    /\ (exists v, BuildMcpServer.get_pr_templates E = Return v)
    /\ (forall s c, exists v, BuildMcpServer.suggest_template E s c = Return v)
    /\ (forall b i m, exists v, GithubActions.analyze_file_changes E b i m = Return v)
    /\ (forall n, exists v, GithubActions.get_recent_actions_events E n = Return v)
    /\ (forall w, exists v, GithubActions.get_workflow_status E w = Return v).
Proof.
  intros E. repeat split; intros; apply try_except_returns; intros e;
    try (destruct e); eexists; reflexivity.
Qed.

(** What a guarded tool of the github-actions module returns after an
    exception is an error object. *)
Lemma guarded_tools_report_errors :
  forall (E : env) (e : exn),
    (forall n, events E = ReadError e ->
       is_error_object_result (GithubActions.get_recent_actions_events E n))
    /\ (forall w, events E = ReadError e ->
       is_error_object_result (GithubActions.get_workflow_status E w))
    /\ (forall b i m rc out err,
          run E (getcwd E) ["git"; "diff"; "--name-status"; b ++ "...HEAD"]
          = Completed rc out err -> rc <> 0 ->
          GithubActions.analyze_file_changes E b i m
          = Return (JObj [ ("error", JStr ("Git error: " ++ err)) ])).
Proof.
  intros E e. split; [|split].
  - intros n H. unfold GithubActions.get_recent_actions_events,
      GithubActions.exists_events, GithubActions.load_events. rewrite H. simpl.
    eexists _, _. split; reflexivity.
  - intros w H. unfold GithubActions.get_workflow_status,
      GithubActions.exists_events, GithubActions.load_events. rewrite H. simpl.
    eexists _, _. split; reflexivity.
  - intros b i m rc out err H Hrc.
    unfold GithubActions.analyze_file_changes, subprocess_run. rewrite H.
    apply Z.eqb_neq in Hrc. rewrite Hrc. reflexivity.
Qed.

(** [get_workflow_status] returns either a list or an error object. *)
Lemma workflow_status_shape (E : env) (wn : option string) :
  (exists entries, GithubActions.get_workflow_status E wn = Return (JArr entries))
  \/ is_error_object_result (GithubActions.get_workflow_status E wn).
Proof.
  unfold GithubActions.get_workflow_status.
  destruct (negb (GithubActions.exists_events E)); simpl; [left; eauto|].
  destruct (GithubActions.load_events E) as [v|]; simpl;
    [|right; eexists _, _; split; reflexivity].
  destruct (iterate v) as [items|]; simpl; [|right; eexists _, _; split; reflexivity].
  destruct (GithubActions.workflow_run_events items) as [evs|]; simpl;
    [|right; eexists _, _; split; reflexivity].
  destruct (GithubActions.reduce _ _) as [st|]; simpl;
    [left; eauto | right; eexists _, _; split; reflexivity].
Qed.

(** C3 at its failing input: in a world whose template directory lacks
    [bug.md], [get_pr_templates] of the github-actions module raises
    FileNotFoundError (its [read_text] stands in no [try]), and so does
    [suggest_template], which calls it; the sibling tools of the
    build-mcp-server module return objects in the same world. *)
Theorem templates_exception_escapes :
  GithubActions.get_pr_templates (Sample.world [] Missing)
  = Raise (PyError "FileNotFoundError" "[Errno 2] No such file or directory: 'bug.md'")
  /\ GithubActions.suggest_template (Sample.world [] Missing) "fix a crash" "bug"
     = Raise (PyError "FileNotFoundError" "[Errno 2] No such file or directory: 'bug.md'")
  /\ BuildMcpServer.get_pr_templates (Sample.world [] Missing) = Return (JArr [])
  /\ BuildMcpServer.suggest_template (Sample.world [] Missing) "fix a crash" "bug"
     = Return (JObj [ ("error", JStr "Template 'bug.md' not found.") ]).
Proof. repeat split; reflexivity. Qed.

(** ** Template recommendation *)

Lemma lookup_In (key value : string) (table : list (string * string)) :
  GithubActions.lookup key table = Some value -> In (key, value) table.
Proof.
  induction table as [|[k v] table IH]; simpl; [discriminate|].
  destruct (String.eqb_spec k key) as [->|_].
  - intros [= ->]. now left.
  - intros H. right. auto.
Qed.

Lemma build_lookup_In (key value : string) (table : list (string * string)) :
  BuildMcpServer.lookup key table = Some value -> In (key, value) table.
Proof.
  induction table as [|[k v] table IH]; simpl; [discriminate|].
  destruct (String.eqb_spec k key) as [->|_].
  - intros [= ->]. now left.
  - intros H. right. auto.
Qed.

(** With every default template readable, [get_pr_templates] lists the
    seven of them in table order. *)
Lemma get_pr_templates_readable (E : env) :
  defaults_readable E ->
  exists c1 c2 c3 c4 c5 c6 c7,
    (readable E "bug.md" c1 /\ readable E "feature.md" c2 /\ readable E "docs.md" c3
     /\ readable E "refactor.md" c4 /\ readable E "test.md" c5
     /\ readable E "performance.md" c6 /\ readable E "security.md" c7)
    /\ GithubActions.get_pr_templates E
       = Return (JArr [ template "bug.md" "Bug Fix" c1;
                        template "feature.md" "Feature" c2;
                        template "docs.md" "Documentation" c3;
                        template "refactor.md" "Refactor" c4;
                        template "test.md" "Test" c5;
                        template "performance.md" "Performance" c6;
                        template "security.md" "Security" c7 ]).
Proof.
  intros H. unfold defaults_readable, GithubActions.DEFAULT_TEMPLATES in H.
  repeat match goal with
         | H : Forall _ (_ :: _) |- _ => inversion H; clear H; subst
         | H : exists _, readable _ _ _ |- _ => destruct H
         end.
  cbn [fst] in *.
  do 7 eexists. split; [repeat split; eassumption|].
  unfold GithubActions.get_pr_templates, GithubActions.DEFAULT_TEMPLATES,
    GithubActions.read_templates, read_text.
  repeat match goal with
         | H : readable _ _ _ |- _ => unfold readable in H; rewrite H; clear H
         end.
  reflexivity.
Qed.

Lemma suggest_template_selects (E : env) (summary change_type f : string) :
  defaults_readable E ->
  In f (List.map fst GithubActions.DEFAULT_TEMPLATES) ->
  GithubActions.lookup_default (lower change_type) "feature.md" GithubActions.TYPE_MAPPING = f ->
  exists label content,
    GithubActions.lookup f GithubActions.DEFAULT_TEMPLATES = Some label
    /\ readable E f content
    /\ GithubActions.suggest_template E summary change_type
       = Return (suggestion (template f label content) content summary change_type).
Proof.
  intros Hr Hin Hf.
  destruct (get_pr_templates_readable E Hr)
    as (c1 & c2 & c3 & c4 & c5 & c6 & c7 & (R1 & R2 & R3 & R4 & R5 & R6 & R7) & Hget).
  unfold GithubActions.suggest_template. rewrite Hget, Hf.
  simpl in Hin.
  repeat (destruct Hin as [<-|Hin]; [eexists _, _; repeat split; try eassumption; reflexivity|]).
  contradiction.
Qed.

Lemma sample_defaults_readable (ev : events_file) :
  defaults_readable (Sample.world Sample.all_templates ev).
Proof. repeat constructor; eexists; reflexivity. Defined.

(** C5 (as amended): when the lower-cased change type is a key of the
    synonym table and the template files can be read, [suggest_template] returns a
    [recommended_template] naming the mapped file and an object without an
    [error] key.  In the github-actions module the recommendation is the
    template's dict (its [filename] is the mapped name); in the
    build-mcp-server module it is the mapped file name itself.  Each module
    is read against its own table. *)
Theorem suggest_template_mapped :
  forall (E : env) (summary change_type f : string),
    (GithubActions.lookup (lower change_type) GithubActions.TYPE_MAPPING = Some f ->
     defaults_readable E ->
     exists label content,
       GithubActions.lookup f GithubActions.DEFAULT_TEMPLATES = Some label
       /\ readable E f content
       /\ GithubActions.suggest_template E summary change_type
          = Return (suggestion (template f label content) content summary change_type)
       /\ keys (suggestion (template f label content) content summary change_type)
          = [ "recommended_template"; "reasoning"; "template_content"; "usage_hint" ])
    /\ (forall content,
          BuildMcpServer.lookup (lower change_type) BuildMcpServer.type_map = Some f ->
          readable E f content ->
          BuildMcpServer.suggest_template E summary change_type
          = Return (JObj [ ("recommended_template", JStr f);
                           ("template_content", JStr content) ])).
Proof.
  intros E summary change_type f. split.
  - intros Hl Hr.
    destruct (suggest_template_selects E summary change_type f Hr) as (l & c & H1 & H2 & H3).
    + apply lookup_In in Hl. simpl in Hl.
      repeat (destruct Hl as [[= _ <-]|Hl]; [simpl; tauto|]). contradiction.
    + unfold GithubActions.lookup_default. now rewrite Hl.
    + exists l, c. repeat split; assumption.
  - intros content Hl Hr. unfold BuildMcpServer.suggest_template.
    rewrite Hl. unfold exists_, read_text. unfold readable in Hr. rewrite Hr.
    apply build_lookup_In in Hl. simpl in Hl.
    repeat (destruct Hl as [[= _ <-]|Hl]; [reflexivity|]). contradiction.
Qed.

(** "FIX" lower-cases to the key [fix], mapped to [bug.md]; "Docs" to
    [docs], mapped to [docs.md]. *)
Lemma suggest_template_mapped_witness :
  GithubActions.suggest_template (Sample.world Sample.all_templates Missing)
    "repair the parser" "FIX"
  = Return (suggestion (template "bug.md" "Bug Fix" "## Bug Fix") "## Bug Fix"
              "repair the parser" "FIX")
  /\ BuildMcpServer.suggest_template (Sample.world Sample.all_templates Missing)
       "describe the API" "Docs"
     = Return (JObj [ ("recommended_template", JStr "docs.md");
                      ("template_content", JStr "## Documentation") ]).
Proof.
  split.
  - destruct (proj1 (suggest_template_mapped (Sample.world Sample.all_templates Missing)
                       "repair the parser" "FIX" "bug.md")
                eq_refl (sample_defaults_readable Missing))
      as (l & c & Hl & Hc & Heq & _).
    vm_compute in Hl. injection Hl as <-.
    unfold readable in Hc. vm_compute in Hc. injection Hc as <-.
    exact Heq.
  - exact (proj2 (suggest_template_mapped (Sample.world Sample.all_templates Missing)
                    "describe the API" "Docs" "docs.md")
             "## Documentation" eq_refl eq_refl).
Defined.

(** C5 as stated fails when the mapped template file is not there: "Bug"
    lower-cases to [bug], a key of both synonym tables, mapped to
    [bug.md]; in a template directory that holds only [feature.md] the
    build-mcp-server tool answers with an error object and no
    recommendation, and the github-actions tool raises the exception of
    the failed read. *)
Lemma suggest_template_mapped_needs_the_file :
  BuildMcpServer.lookup (lower "Bug") BuildMcpServer.type_map = Some "bug.md"
  /\ GithubActions.lookup (lower "Bug") GithubActions.TYPE_MAPPING = Some "bug.md"
  /\ BuildMcpServer.suggest_template
       (Sample.world [ ("feature.md", Text "## Feature") ] Missing) "repair the parser" "Bug"
     = Return (JObj [ ("error", JStr "Template 'bug.md' not found.") ])
  /\ field "recommended_template"
       (JObj [ ("error", JStr "Template 'bug.md' not found.") ]) = None
  /\ GithubActions.suggest_template
       (Sample.world [ ("feature.md", Text "## Feature") ] Missing) "repair the parser" "Bug"
     = Raise (PyError "FileNotFoundError" "[Errno 2] No such file or directory: 'bug.md'").
Proof.
  repeat split; reflexivity.
Qed.

(** C4 (as amended): when the lower-cased change type is not a key of the
    synonym table, the github-actions [suggest_template] recommends the
    [feature.md] template (the default of the table lookup) with the same
    four fields as for a known type: no error field and no template list.
    The build-mcp-server [suggest_template] recommends nothing: it returns an
    [error] text naming the unknown type together with the full template set
    [get_pr_templates] lists. *)
Theorem suggest_template_unmapped :
  forall (E : env) (summary change_type : string),
    (GithubActions.lookup (lower change_type) GithubActions.TYPE_MAPPING = None ->
     defaults_readable E ->
     exists content,
       readable E "feature.md" content
       /\ GithubActions.suggest_template E summary change_type
          = Return (suggestion (template "feature.md" "Feature" content) content
                      summary change_type))
    /\ (forall templates,
          BuildMcpServer.lookup (lower change_type) BuildMcpServer.type_map = None ->
          BuildMcpServer.get_pr_templates E = Return (JArr templates) ->
          BuildMcpServer.suggest_template E summary change_type
          = Return (JObj [ ("error", JStr ("Unknown change_type '" ++ change_type
                                             ++ "'. Returning all templates."));
                           ("templates", JArr templates) ])).
Proof.
  intros E summary change_type. split.
  - intros Hl Hr.
    destruct (suggest_template_selects E summary change_type "feature.md" Hr)
      as (l & c & H1 & H2 & H3).
    + simpl. tauto.
    + unfold GithubActions.lookup_default. now rewrite Hl.
    + injection H1 as <-. now exists c.
  - intros templates Hl Hget.
    unfold BuildMcpServer.suggest_template. rewrite Hl.
    unfold BuildMcpServer.get_pr_templates in Hget.
    destruct (BuildMcpServer.read_templates E (glob_md E)) as [ts|e]; simpl in *.
    + now injection Hget as ->.
    + discriminate.
Qed.

(** The unknown type "chore" in a world holding the seven templates. *)
Lemma suggest_template_unmapped_witness :
  GithubActions.suggest_template (Sample.world Sample.all_templates Missing)
    "tidy the build" "chore"
  = Return (suggestion (template "feature.md" "Feature" "## Feature") "## Feature"
              "tidy the build" "chore")
  /\ exists templates,
       List.length templates = 7%nat
       /\ BuildMcpServer.suggest_template (Sample.world Sample.all_templates Missing)
            "tidy the build" "chore"
          = Return (JObj [ ("error", JStr "Unknown change_type 'chore'. Returning all templates.");
                           ("templates", JArr templates) ]).
Proof.
  split.
  - destruct (proj1 (suggest_template_unmapped (Sample.world Sample.all_templates Missing)
                       "tidy the build" "chore")
                eq_refl (sample_defaults_readable Missing))
      as (c & Hc & Heq).
    unfold readable in Hc. vm_compute in Hc. injection Hc as <-. exact Heq.
  - eexists. split;
      [| exact (proj2 (suggest_template_unmapped (Sample.world Sample.all_templates Missing)
                         "tidy the build" "chore") _ eq_refl eq_refl)].
    reflexivity.
Defined.

(** C4 as stated fails: for the unknown type "chore" the github-actions
    [suggest_template] returns [feature.md], which is not the first entry of
    the table ([bug.md]), in an object that has neither an [error] field nor
    a template list. *)
Lemma suggest_template_unmapped_has_no_error_field :
  GithubActions.lookup (lower "chore") GithubActions.TYPE_MAPPING = None
  /\ GithubActions.suggest_template (Sample.world Sample.all_templates Missing)
       "tidy the build" "chore"
     = Return (suggestion (template "feature.md" "Feature" "## Feature") "## Feature"
                 "tidy the build" "chore")
  /\ keys (suggestion (template "feature.md" "Feature" "## Feature") "## Feature"
             "tidy the build" "chore")
     = [ "recommended_template"; "reasoning"; "template_content"; "usage_hint" ]
  /\ List.map fst (firstn 1 GithubActions.DEFAULT_TEMPLATES) = [ "bug.md" ]
  /\ List.map fst (firstn 1 GithubActions.TYPE_MAPPING) = [ "bug" ]
  /\ "feature.md" <> "bug.md".
Proof. repeat split; try reflexivity. discriminate. Qed.

(** ** Change report without the diff *)





(** ** Workflow status: equality of keys *)

Lemma py_eq_str_l (n : string) (k : json) : py_eq (JStr n) k = true <-> k = JStr n.
Proof.
  destruct k; simpl; split; try discriminate.
  - intros H. apply String.eqb_eq in H. now subst.
  - intros [= ->]. apply String.eqb_refl.
Qed.

Lemma py_eq_str_r (n : string) (k : json) : py_eq k (JStr n) = true <-> k = JStr n.
Proof.
  destruct k; simpl; split; try discriminate.
  - intros H. apply String.eqb_eq in H. now subst.
  - intros [= ->]. apply String.eqb_refl.
Qed.

Lemma py_eq_refl_hashable (a : json) : hashable a = true -> py_eq a a = true.
Proof.
  destruct a; simpl; try discriminate; intros _.
  - reflexivity.
  - apply Bool.eqb_reflx.
  - apply Z.eqb_refl.
  - apply String.eqb_refl.
Qed.





(** ** Workflow status: the table of latest entries *)

Lemma find_key_none (name : json) (st : GithubActions.status_table) :
  GithubActions.find_key name st = None ->
  Forall (fun k => py_eq k name = false) (List.map fst st).
Proof.
  induction st as [|[k v] st IH]; simpl; intros H; [constructor|].
  destruct (py_eq k name) eqn:Hk; [discriminate|].
  constructor; auto.
Qed.

Lemma find_key_some (name : json) (st : GithubActions.status_table) (c : GithubActions.dict) :
  GithubActions.find_key name st = Some c ->
  exists l1 k l2,
    st = (l1 ++ (k, c) :: l2)%list /\ py_eq k name = true
    /\ forall v, GithubActions.set_key name v st = (l1 ++ (k, v) :: l2)%list.
Proof.
  induction st as [|[k w] st IH]; simpl; intros H; [discriminate|].
  destruct (py_eq k name) eqn:Hk.
  - injection H as ->. exists [], k, st. repeat split; auto.
  - destruct (IH H) as (l1 & k' & l2 & -> & Hk' & Hset).
    exists ((k, w) :: l1), k', l2. repeat split; auto.
    intros v. simpl. now rewrite Hset.
Qed.

Lemma set_key_absent (name : json) (v : GithubActions.dict) (st : GithubActions.status_table) :
  GithubActions.find_key name st = None ->
  GithubActions.set_key name v st = (st ++ [(name, v)])%list.
Proof.
  induction st as [|[k w] st IH]; simpl; intros H; [reflexivity|].
  destruct (py_eq k name); [discriminate|]. now rewrite IH.
Qed.

(** What a turn of the loop can do to the table. *)
Lemma step_cases (st st' : GithubActions.status_table) (e : GithubActions.dict) :
  GithubActions.step st e = Return st' ->
  hashable (name_of e) = true
  /\ ((GithubActions.find_key (name_of e) st = None
       /\ st' = (st ++ [(name_of e, GithubActions.entry_of e)])%list)
      \/ (exists c, GithubActions.find_key (name_of e) st = Some c
                    /\ (st' = st
                        \/ st' = GithubActions.set_key (name_of e) (GithubActions.entry_of e) st))).
Proof.
  unfold GithubActions.step. fold (name_of e).
  destruct (hashable (name_of e)) eqn:Hh; simpl; [|discriminate].
  intros H. split; [reflexivity|].
  destruct (GithubActions.find_key (name_of e) st) as [c|] eqn:Hf.
  - right. exists c. split; [reflexivity|].
    destruct (truthy (get "updated_at" e)).
    + destruct (py_lt _ _) as [[|]|]; simpl in H; try discriminate;
        injection H as <-; auto.
    + injection H as <-. auto.
  - left. injection H as <-. split; [reflexivity|]. now apply set_key_absent.
Qed.

Lemma FOP_snoc {A : Type} (R : A -> A -> Prop) (l : list A) (x : A) :
  ForallOrdPairs R l -> Forall (fun a => R a x) l -> ForallOrdPairs R (l ++ [x]).
Proof.
  induction 1 as [|a l Ha Hl IH]; simpl; intros Hx.
  - repeat constructor.
  - inversion Hx; subst. constructor; auto.
    apply Forall_app. split; auto.
Qed.

Lemma table_ok_step (seen : list GithubActions.dict) (st st' : GithubActions.status_table)
    (e : GithubActions.dict) :
  table_ok seen st -> GithubActions.step st e = Return st' ->
  table_ok (seen ++ [e]) st'.
Proof.
  intros (I1 & I2 & I3) H.
  assert (W1 : Forall (fun kv => hashable (fst kv) = true
                    /\ exists e0, In e0 (seen ++ [e]) /\ snd kv = GithubActions.entry_of e0
                                 /\ py_eq (fst kv) (name_of e0) = true) st).
  { eapply Forall_impl; [|exact I1]. intros kv (Hh & e0 & Hin & Hs & Hk).
    split; [assumption|]. exists e0. repeat split; auto. apply in_or_app. now left. }
  destruct (step_cases st st' e H) as (Hh & [(Hf & ->) | (c & Hf & Hst)]).
  - (* a new key *)
    repeat split.
    + apply Forall_app. split; [exact W1|]. constructor; [|constructor].
      simpl. split; [assumption|]. exists e. repeat split.
      * apply in_or_app. right. now left.
      * now apply py_eq_refl_hashable.
    + rewrite map_app. simpl. apply FOP_snoc; [assumption|].
      now apply find_key_none.
    + apply Forall_app. split.
      * eapply Forall_impl; [|exact I3]. intros e0 (k & Hin & Hk).
        exists k. split; [|assumption]. rewrite map_app. apply in_or_app. now left.
      * constructor; [|constructor]. exists (name_of e). split.
        -- rewrite map_app. apply in_or_app. right. now left.
        -- now apply py_eq_refl_hashable.
  - (* a key already stored *)
    destruct (find_key_some _ _ _ Hf) as (l1 & k & l2 & Est & Hk & Hset).
    assert (Hkeys : List.map fst st' = List.map fst st).
    { destruct Hst as [->| ->]; [reflexivity|].
      rewrite Hset, Est, !map_app. reflexivity. }
    repeat split.
    + destruct Hst as [->| ->]; [exact W1|].
      rewrite Hset. rewrite Est in W1.
      apply Forall_app in W1 as (W1a & W1b). inversion W1b as [|? ? (Hhk & _) W1c]; subst.
      apply Forall_app. split; [assumption|]. constructor; [|assumption].
      simpl in *. split; [assumption|]. exists e. repeat split; auto.
      apply in_or_app. right. now left.
    + now rewrite Hkeys.
    + rewrite Hkeys. apply Forall_app. split; [exact I3|].
      constructor; [|constructor]. exists k. split; [|assumption].
      rewrite Est, map_app. apply in_or_app. right. now left.
Qed.

Lemma table_ok_reduce (evs seen : list GithubActions.dict)
    (st st' : GithubActions.status_table) :
  table_ok seen st -> GithubActions.reduce st evs = Return st' ->
  table_ok (seen ++ evs) st'.
Proof.
  revert seen st. induction evs as [|e evs IH]; simpl; intros seen st Hok H.
  - injection H as <-. now rewrite app_nil_r.
  - destruct (GithubActions.step st e) as [st1|] eqn:Hs; simpl in H; [|discriminate].
    replace (seen ++ e :: evs)%list with ((seen ++ [e]) ++ evs)%list
      by (now rewrite <- app_assoc).
    eapply IH; [|exact H]. eapply table_ok_step; eassumption.
Qed.

Lemma table_ok_start : table_ok [] [].
Proof. repeat split; constructor. Qed.

(** A list result of [get_workflow_status] is the table the loop built
    over the selected events. *)
Lemma status_of_selected (E : env) (wn : option string) (entries : list json) :
  GithubActions.get_workflow_status E wn = Return (JArr entries) ->
  exists st,
    GithubActions.reduce [] (selected_events E wn) = Return st
    /\ entries = GithubActions.values st.
Proof.
  unfold GithubActions.get_workflow_status, selected_events,
    GithubActions.exists_events, GithubActions.load_events.
  destruct (events E) as [|e|v]; simpl.
  - intros [= <-]. exists []. split; reflexivity.
  - discriminate.
  - destruct (iterate v) as [items|]; simpl; [|discriminate].
    destruct (GithubActions.workflow_run_events items) as [evs|]; simpl; [|discriminate].
    destruct (GithubActions.reduce [] (GithubActions.filter_by_name wn evs)) as [st|];
      simpl; [|discriminate].
    intros [= <-]. exists st. split; reflexivity.
Qed.






(** The selected events are exactly the logged dicts whose [event] is
    "workflow_run" and that pass the name filter. *)
Lemma workflow_run_events_spec (items : list json) (evs : list GithubActions.dict) :
  GithubActions.workflow_run_events items = Return evs ->
  forall e, In e evs <-> In (JObj e) items /\ get "event" e = JStr "workflow_run".
Proof.
  revert evs. induction items as [|x items IH]; simpl; intros evs H e.
  - injection H as <-. simpl. tauto.
  - destruct x as [| | | | |d]; simpl in H; try discriminate.
    destruct (GithubActions.workflow_run_events items) as [kept|]; simpl in H;
      [|discriminate].
    injection H as <-. specialize (IH kept eq_refl e).
    destruct (py_eq (get "event" d) (JStr "workflow_run")) eqn:Hd.
    + apply py_eq_str_r in Hd. simpl. rewrite IH. split.
      * intros [<-|[H1 H2]]; auto.
      * intros [[[= ->]|H1] H2]; auto.
    + rewrite IH. split.
      * intros [H1 H2]; auto.
      * intros [[[= ->]|H1] H2]; auto.
        rewrite H2 in Hd. simpl in Hd. discriminate.
Qed.

Lemma selected_events_spec (E : env) (wn : option string) (v : json) (items : list json)
    (evs : list GithubActions.dict) :
  events E = Loaded v -> iterate v = Return items ->
  GithubActions.workflow_run_events items = Return evs ->
  forall e, In e (selected_events E wn) <->
            In (JObj e) items /\ get "event" e = JStr "workflow_run"
            /\ (forall n, wn = Some n -> n <> "" -> get "workflow_name" e = JStr n).
Proof.
  intros Hev Hit Hw e. unfold selected_events. rewrite Hev, Hit, Hw.
  pose proof (workflow_run_events_spec items evs Hw e) as Hspec.
  unfold GithubActions.filter_by_name. destruct wn as [n|].
  - destruct (String.eqb_spec n "") as [->|Hn]; simpl.
    + rewrite Hspec. split; [intros [H1 H2]|tauto].
      repeat split; auto. intros n [= <-] Hn. contradiction.
    + rewrite filter_In, Hspec, py_eq_str_r. split.
      * intros [[H1 H2] H3]. repeat split; auto. now intros n' [= <-] _.
      * intros (H1 & H2 & H3). auto.
  - rewrite Hspec. split; [intros [H1 H2]|tauto].
    repeat split; auto. discriminate.
Qed.

(** ** Workflow status: the tie-break *)

Lemma status_loaded (E : env) (wn : option string) (v : json) (items : list json)
    (evs : list GithubActions.dict) :
  events E = Loaded v -> iterate v = Return items ->
  GithubActions.workflow_run_events items = Return evs ->
  GithubActions.get_workflow_status E wn
  = match GithubActions.reduce [] (GithubActions.filter_by_name wn evs) with
    | Return st => Return (JArr (GithubActions.values st))
    | Raise e => Return (JObj [ ("error", JStr ("Failed to get workflow status: "
                                                 ++ str_exn E e)) ])
    end.
Proof.
  intros Hev Hit Hw.
  unfold GithubActions.get_workflow_status, GithubActions.exists_events,
    GithubActions.load_events.
  rewrite Hev. simpl. rewrite Hit. simpl. rewrite Hw. simpl.
  destruct (GithubActions.reduce _ _); reflexivity.
Qed.

Lemma ltb_empty (t : string) : String.ltb t "" = false.
Proof. destruct t; reflexivity. Qed.

Lemma find_key_set_same (n : string) (v : GithubActions.dict) (st : GithubActions.status_table) :
  GithubActions.find_key (JStr n) (GithubActions.set_key (JStr n) v st) = Some v.
Proof.
  induction st as [|[k w] st IH]; simpl.
  - now rewrite String.eqb_refl.
  - destruct (py_eq k (JStr n)) eqn:Hk; simpl; rewrite Hk; auto.
Qed.

Lemma find_key_set_other (n : string) (y : json) (v : GithubActions.dict)
    (st : GithubActions.status_table) :
  y <> JStr n ->
  GithubActions.find_key (JStr n) (GithubActions.set_key y v st)
  = GithubActions.find_key (JStr n) st.
Proof.
  intros Hy.
  assert (Hyn : py_eq y (JStr n) = false).
  { destruct (py_eq y (JStr n)) eqn:H; [|reflexivity].
    apply py_eq_str_r in H. contradiction. }
  induction st as [|[k w] st IH]; simpl.
  - now rewrite Hyn.
  - destruct (py_eq k y) eqn:Hk; simpl.
    + destruct (py_eq k (JStr n)) eqn:Hkn; [|reflexivity].
      apply py_eq_str_r in Hkn. subst k. apply py_eq_str_l in Hk. congruence.
    + destruct (py_eq k (JStr n)); auto.
Qed.

(** The first event of a group is stored. *)
Lemma step_first (st : GithubActions.status_table) (e : GithubActions.dict) (n : string) :
  name_of e = JStr n -> GithubActions.find_key (JStr n) st = None ->
  GithubActions.step st e
  = Return (GithubActions.set_key (JStr n) (GithubActions.entry_of e) st).
Proof.
  intros Hn Hf. unfold GithubActions.step. fold (name_of e).
  rewrite Hn. simpl hashable. cbn [negb]. now rewrite Hf.
Qed.

(** The tie-break with string timestamps. *)
Lemma step_string_timestamps (st : GithubActions.status_table)
    (event candidate : GithubActions.dict) (n t : string) :
  name_of event = JStr n ->
  GithubActions.find_key (JStr n) st = Some candidate ->
  dict_get "updated_at" candidate = Some (JStr t) ->
  (get "updated_at" event = JNull -> GithubActions.step st event = Return st)
  /\ (forall s, get "updated_at" event = JStr s ->
        GithubActions.step st event
        = Return (if String.ltb t s
                  then GithubActions.set_key (JStr n) (GithubActions.entry_of event) st
                  else st)).
Proof.
  intros Hn Hf Ht. unfold GithubActions.step. fold (name_of event).
  assert (Hc : get_default "updated_at" (JStr "") candidate = JStr t)
    by (unfold get_default; now rewrite Ht).
  rewrite Hn. simpl hashable. cbn [negb]. rewrite Hf, Hc. split.
  - intros ->. reflexivity.
  - intros s ->. simpl truthy.
    destruct (String.eqb_spec s "") as [->|Hs]; simpl.
    + now rewrite ltb_empty.
    + destruct (String.ltb t s); reflexivity.
Qed.

Lemma entry_updated_at (e : GithubActions.dict) :
  dict_get "updated_at" (GithubActions.entry_of e) = Some (get "updated_at" e).
Proof. reflexivity. Qed.



(** ** Workflow status: a candidate without timestamp *)

Lemma py_lt_none (u : json) : py_lt JNull u = Raise (unorderable JNull u).
Proof. destruct u; reflexivity. Qed.

(** An event of another group leaves the entry of group [n] alone. *)
Lemma step_other_name (st st' : GithubActions.status_table) (e : GithubActions.dict)
    (n : string) :
  name_of e <> JStr n -> GithubActions.step st e = Return st' ->
  GithubActions.find_key (JStr n) st' = GithubActions.find_key (JStr n) st.
Proof.
  intros Hn H.
  destruct (step_cases st st' e H) as (_ & [(Hf & ->) | (c & Hf & [->| ->])]).
  - rewrite <- (set_key_absent _ (GithubActions.entry_of e) _ Hf).
    now apply find_key_set_other.
  - reflexivity.
  - now apply find_key_set_other.
Qed.

(** With a candidate whose [updated_at] is None, an event of the group
    either has a falsy [updated_at] and changes nothing, or makes the
    comparison [None < updated_at] raise. *)
Lemma step_null_candidate (st : GithubActions.status_table)
    (e c : GithubActions.dict) (n : string) :
  name_of e = JStr n ->
  GithubActions.find_key (JStr n) st = Some c ->
  dict_get "updated_at" c = Some JNull ->
  GithubActions.step st e
  = if truthy (get "updated_at" e)
    then Raise (unorderable JNull (get "updated_at" e))
    else Return st.
Proof.
  intros Hn Hf Hc. unfold GithubActions.step. fold (name_of e).
  assert (Hd : get_default "updated_at" (JStr "") c = JNull)
    by (unfold get_default; now rewrite Hc).
  rewrite Hn. simpl hashable. cbn [negb]. rewrite Hf, Hd.
  destruct (truthy (get "updated_at" e)); [|reflexivity].
  now rewrite py_lt_none.
Qed.

Lemma json_eq_name (e : GithubActions.dict) (n : string) :
  name_of e = JStr n \/ name_of e <> JStr n.
Proof.
  destruct (py_eq (name_of e) (JStr n)) eqn:H.
  - left. now apply py_eq_str_r.
  - right. intros Heq. rewrite Heq in H. simpl in H.
    now rewrite String.eqb_refl in H.
Qed.

Lemma reduce_prefix_absent (n : string) (pre rest : list GithubActions.dict) :
  forall st,
    GithubActions.find_key (JStr n) st = None ->
    Forall (fun e => name_of e <> JStr n) pre ->
    (exists x, GithubActions.reduce st (pre ++ rest) = Raise x)
    \/ (exists st', GithubActions.find_key (JStr n) st' = None
                    /\ GithubActions.reduce st (pre ++ rest) = GithubActions.reduce st' rest).
Proof.
  induction pre as [|e pre IH]; intros st Hf Hpre; simpl.
  - right. now exists st.
  - inversion Hpre as [|? ? He Hpre']; subst.
    destruct (GithubActions.step st e) as [st1|x] eqn:Hs; simpl.
    + apply IH; [|assumption].
      now rewrite (step_other_name st st1 e n He Hs).
    + left. now exists x.
Qed.

Lemma reduce_raises (n : string) (B : GithubActions.dict) (rest : list GithubActions.dict) :
  name_of B = JStr n -> truthy (get "updated_at" B) = true -> In B rest ->
  forall st c,
    GithubActions.find_key (JStr n) st = Some c ->
    dict_get "updated_at" c = Some JNull ->
    exists x, GithubActions.reduce st rest = Raise x.
Proof.
  intros HB HT. induction rest as [|e rest IH]; intros Hin st c Hf Hc; [contradiction|].
  simpl.
  destruct (json_eq_name e n) as [He|He].
  - rewrite (step_null_candidate st e c n He Hf Hc).
    destruct (truthy (get "updated_at" e)) eqn:Ht; simpl; [eauto|].
    destruct Hin as [->|Hin]; [congruence|]. now apply (IH Hin st c).
  - destruct Hin as [->|Hin]; [contradiction|].
    destruct (GithubActions.step st e) as [st1|x] eqn:Hs; simpl; [|eauto].
    apply (IH Hin st1 c); [|assumption].
    now rewrite (step_other_name st st1 e n He Hs).
Qed.

(** C10 (as amended): if, among the workflow_run events that pass the name
    filter, the first event [A] of a workflow name has no [updated_at]
    value (absent or null) and a later event [B] of that name has a
    non-empty string [updated_at], then [get_workflow_status] returns the
    error object [{"error": "Failed to get workflow status: ..."}]: the
    candidate stored for [A] holds None, and [None < updated_at] raises. *)
Theorem unstamped_candidate_raises :
  forall (E : env) (wn : option string) (v : json) (items : list json)
         (evs pre rest : list GithubActions.dict) (A B : GithubActions.dict)
         (n s : string),
    events E = Loaded v -> iterate v = Return items ->
    GithubActions.workflow_run_events items = Return evs ->
    GithubActions.filter_by_name wn evs = (pre ++ A :: rest)%list ->
    Forall (fun e => name_of e <> JStr n) pre ->
    name_of A = JStr n -> get "updated_at" A = JNull ->
    In B rest -> name_of B = JStr n -> get "updated_at" B = JStr s -> s <> "" ->
    exists text,
      GithubActions.get_workflow_status E wn
      = Return (JObj [ ("error", JStr ("Failed to get workflow status: " ++ text)) ]).
Proof.
  intros E wn v items evs pre rest A B n s Hev Hit Hw Hfl Hpre NA TA Hin NB TB Hs.
  rewrite (status_loaded E wn v items evs Hev Hit Hw), Hfl.
  assert (Hraise : exists x, GithubActions.reduce [] (pre ++ A :: rest) = Raise x).
  { destruct (reduce_prefix_absent n pre (A :: rest) [] eq_refl Hpre)
      as [Hx | (st' & Hf & ->)]; [assumption|].
    simpl. rewrite (step_first st' A n NA Hf). simpl.
    apply (reduce_raises n B rest NB) with (c := GithubActions.entry_of A); auto.
    - rewrite TB. simpl. now apply negb_true_iff, String.eqb_neq.
    - apply find_key_set_same.
    - now rewrite entry_updated_at, TA. }
  destruct Hraise as [x ->]. now exists (str_exn E x).
Qed.

(** A run of "CI" without [updated_at], then one stamped 2024-01-02. *)
Lemma unstamped_candidate_raises_witness :
  (exists text,
     GithubActions.get_workflow_status
       (Sample.world [] (Loaded (JArr Sample.unstamped_first))) None
     = Return (JObj [ ("error", JStr ("Failed to get workflow status: " ++ text)) ]))
  /\ GithubActions.get_workflow_status
       (Sample.world [] (Loaded (JArr Sample.unstamped_first))) None
     = Return (JObj [ ("error",
                       JStr "Failed to get workflow status: '<' not supported between instances of 'NoneType' and 'str'") ]).
Proof.
  split; [|reflexivity].
  apply (unstamped_candidate_raises
           (Sample.world [] (Loaded (JArr Sample.unstamped_first))) None
           (JArr Sample.unstamped_first) Sample.unstamped_first
           [ Sample.run_fields "CI" 1 None; Sample.run_fields "CI" 2 (Some Sample.jan2) ]
           [] [ Sample.run_fields "CI" 2 (Some Sample.jan2) ]
           (Sample.run_fields "CI" 1 None) (Sample.run_fields "CI" 2 (Some Sample.jan2))
           "CI" Sample.jan2);
    try reflexivity.
  - constructor.
  - simpl. now left.
  - discriminate.
Defined.

(** C10 as stated fails.  In the first log a run of "CI" without
    [updated_at] is followed by a run of "CI" stamped 2024-01-02, yet the
    answer is a status list: an earlier stamped run is the candidate, and
    the unstamped run never replaces it.  In the second log the later
    [updated_at] is the empty string, which is falsy, so nothing is
    compared. *)
Lemma unstamped_run_without_error :
  GithubActions.get_workflow_status
    (Sample.world [] (Loaded (JArr Sample.stamped_first))) None
  = Return (JArr [ JObj (GithubActions.entry_of (Sample.run_fields "CI" 3 (Some Sample.jan2))) ])
  /\ GithubActions.get_workflow_status
       (Sample.world [] (Loaded (JArr Sample.empty_stamp))) None
     = Return (JArr [ JObj (GithubActions.entry_of (Sample.run_fields "CI" 1 None)) ]).
Proof. split; reflexivity. Qed.

(** ** Workflow status: the latest stamp wins over a whole log *)

Lemma ascii_compare_refl (c : ascii) : Ascii.compare c c = Eq.
Proof. unfold Ascii.compare. apply N.compare_refl. Qed.

Lemma string_compare_refl (s : string) : String.compare s s = Eq.
Proof. induction s as [|c s IH]; simpl; [reflexivity|]. now rewrite ascii_compare_refl. Qed.

Lemma ltb_irrefl (s : string) : String.ltb s s = false.
Proof. unfold String.ltb. now rewrite string_compare_refl. Qed.

Lemma string_compare_lt_trans (a b c : string) :
  String.compare a b = Lt -> String.compare b c = Lt -> String.compare a c = Lt.
Proof.
  revert b c. induction a as [|x a IH]; intros [|y b] [|z c]; simpl;
    try discriminate; auto.
  destruct (Ascii.compare x y) eqn:Hxy; destruct (Ascii.compare y z) eqn:Hyz;
    try discriminate; intros H1 H2.
  - apply Ascii.compare_eq_iff in Hxy, Hyz. subst.
    rewrite ascii_compare_refl. eauto.
  - apply Ascii.compare_eq_iff in Hxy. subst. now rewrite Hyz.
  - apply Ascii.compare_eq_iff in Hyz. subst. now rewrite Hxy.
  - unfold Ascii.compare in *. rewrite N.compare_lt_iff in Hxy, Hyz.
    assert (H : (N_of_ascii x < N_of_ascii z)%N) by lia.
    apply N.compare_lt_iff in H. now rewrite H.
Qed.

Lemma ltb_trans (a b c : string) :
  String.ltb a b = true -> String.ltb b c = true -> String.ltb a c = true.
Proof.
  unfold String.ltb. intros H1 H2.
  destruct (String.compare a b) eqn:Hab; try discriminate.
  destruct (String.compare b c) eqn:Hbc; try discriminate.
  now rewrite (string_compare_lt_trans a b c Hab Hbc).
Qed.

Lemma find_key_In (name : json) (st : GithubActions.status_table) (c : GithubActions.dict) :
  GithubActions.find_key name st = Some c -> In (JObj c) (GithubActions.values st).
Proof.
  intros H. destruct (find_key_some _ _ _ H) as (l1 & k & l2 & -> & _ & _).
  unfold GithubActions.values. rewrite map_app. apply in_or_app. right. now left.
Qed.

Ltac seen_tac :=
  repeat split; auto; try congruence;
  try (apply in_or_app; solve [now left | right; now left]).

Lemma latest_ok_step (seen : list GithubActions.dict) (st : GithubActions.status_table)
    (e : GithubActions.dict) :
  Forall stamped seen -> stamped e -> latest_ok seen st ->
  exists st', GithubActions.step st e = Return st' /\ latest_ok (seen ++ [e]) st'.
Proof.
  intros Hseen (n & s & Hn & Hs) (HB & HA).
  rewrite Forall_forall in Hseen.
  assert (Hself : not_older e e).
  { intros s1 s2 H1 H2. rewrite H1 in H2. injection H2 as <-. apply ltb_irrefl. }
  (* storing [e] under its group keeps the first half of the invariant *)
  assert (HBset : forall m c,
             GithubActions.find_key (JStr m)
               (GithubActions.set_key (JStr n) (GithubActions.entry_of e) st) = Some c ->
             exists e', In e' (seen ++ [e]) /\ c = GithubActions.entry_of e'
                        /\ name_of e' = JStr m).
  { intros m c Hm. destruct (String.eqb_spec m n) as [->|Hmn].
    - rewrite find_key_set_same in Hm. injection Hm as <-. exists e. seen_tac.
    - rewrite find_key_set_other in Hm by congruence.
      destruct (HB m c Hm) as (e' & He' & -> & Hm'). exists e'. seen_tac. }
  (* events of other groups keep their entry when [e] is stored *)
  assert (HAother : forall e0, In e0 seen -> name_of e0 <> JStr n ->
             exists e', GithubActions.find_key (name_of e0)
                          (GithubActions.set_key (JStr n) (GithubActions.entry_of e) st)
                        = Some (GithubActions.entry_of e')
                        /\ In e' (seen ++ [e]) /\ name_of e' = name_of e0 /\ not_older e' e0).
  { intros e0 He0 Hne. destruct (HA e0 He0) as (e2 & Hf2 & He2 & Hn2 & Hold).
    destruct (Hseen e0 He0) as (n0 & s0 & Hn0 & Hs0).
    exists e2. rewrite Hn0 in *. rewrite find_key_set_other by congruence. seen_tac. }
  destruct (GithubActions.find_key (JStr n) st) as [c|] eqn:Hf.
  - (* the group has a candidate *)
    destruct (HB n c Hf) as (e1 & He1 & -> & Hn1).
    destruct (Hseen e1 He1) as (n1 & t & Hn1' & Ht).
    destruct (step_string_timestamps st e (GithubActions.entry_of e1) n t Hn Hf) as [_ Hstep].
    { now rewrite entry_updated_at, Ht. }
    rewrite (Hstep s Hs).
    destruct (String.ltb t s) eqn:Hlt; eexists; (split; [reflexivity|]); split.
    + exact HBset.
    + intros e0 He0. apply in_app_or in He0 as [He0|[<-|[]]].
      * destruct (json_eq_name e0 n) as [Hn0|Hn0]; [|now apply HAother].
        exists e. rewrite Hn0, find_key_set_same. seen_tac.
        intros s' s0 Hs' Hs0. rewrite Hs in Hs'. injection Hs' as <-.
        destruct (HA e0 He0) as (e2 & Hf2 & _ & _ & Hold).
        rewrite Hn0, Hf in Hf2.
        assert (Hentry : GithubActions.entry_of e1 = GithubActions.entry_of e2)
          by congruence.
        assert (Ht2 : get "updated_at" e2 = JStr t).
        { pose proof (f_equal (dict_get "updated_at") Hentry) as X.
          rewrite !entry_updated_at in X. injection X as X. congruence. }
        specialize (Hold t s0 Ht2 Hs0).
        destruct (String.ltb s s0) eqn:Hss; [|reflexivity].
        now rewrite (ltb_trans t s s0 Hlt Hss) in Hold.
      * exists e. rewrite Hn, find_key_set_same. seen_tac.
    + intros m c Hm. destruct (HB m c Hm) as (e' & He' & -> & Hm').
      exists e'. seen_tac.
    + intros e0 He0. apply in_app_or in He0 as [He0|[<-|[]]].
      * destruct (HA e0 He0) as (e2 & Hf2 & He2 & Hn2 & Hold). exists e2. seen_tac.
      * exists e1. rewrite Hn, Hf. seen_tac.
  - (* the first event of the group *)
    rewrite (step_first st e n Hn Hf). eexists. split; [reflexivity|]. split.
    + exact HBset.
    + intros e0 He0. apply in_app_or in He0 as [He0|[<-|[]]].
      * apply HAother; [assumption|].
        intros Hn0. destruct (HA e0 He0) as (e2 & Hf2 & _). congruence.
      * exists e. rewrite Hn, find_key_set_same. seen_tac.
Qed.

Lemma latest_ok_reduce (evs seen : list GithubActions.dict) (st : GithubActions.status_table) :
  Forall stamped seen -> Forall stamped evs -> latest_ok seen st ->
  exists st', GithubActions.reduce st evs = Return st' /\ latest_ok (seen ++ evs) st'.
Proof.
  revert seen st. induction evs as [|e evs IH]; intros seen st Hseen Hevs Hok; simpl.
  - exists st. now rewrite app_nil_r.
  - inversion Hevs as [|? ? He Hevs']; subst.
    destruct (latest_ok_step seen st e Hseen He Hok) as (st1 & -> & Hok1). simpl.
    destruct (IH (seen ++ [e])%list st1) as (st' & Hred & Hok'); auto.
    + apply Forall_app. split; [assumption|]. now constructor.
    + exists st'. split; [assumption|]. now rewrite <- app_assoc in Hok'.
Qed.

Lemma latest_ok_start : latest_ok [] [].
Proof. split; [discriminate | contradiction]. Qed.

Lemma sample_two_runs_stamped :
  Forall stamped [ Sample.run_fields "CI" 1 (Some Sample.jan1);
                   Sample.run_fields "CI" 2 (Some Sample.jan2) ].
Proof. repeat constructor; eexists _, _; split; reflexivity. Defined.





(** Over a log whose selected events all carry a str name and a str
    [updated_at], [get_workflow_status] returns a list, and for every
    selected event the list holds the entry of a run of the same name
    that is stamped no earlier (as strings): its name, [run_id], [status],
    [conclusion] and [updated_at]. *)
Theorem latest_stamp_wins :
  forall (E : env) (wn : option string) (v : json) (items : list json)
         (evs : list GithubActions.dict),
    events E = Loaded v -> iterate v = Return items ->
    GithubActions.workflow_run_events items = Return evs ->
    Forall stamped (GithubActions.filter_by_name wn evs) ->
    exists entries,
      GithubActions.get_workflow_status E wn = Return (JArr entries)
      /\ forall e, In e (GithubActions.filter_by_name wn evs) ->
           exists e', In e' (GithubActions.filter_by_name wn evs)
                      /\ name_of e' = name_of e
                      /\ not_older e' e
                      /\ In (status_entry (name_of e') (get "run_id" e') (get "status" e')
                               (get "conclusion" e') (get "updated_at" e'))
                            entries.
Proof.
  intros E wn v items evs Hev Hit Hw Hst.
  destruct (latest_ok_reduce (GithubActions.filter_by_name wn evs) [] []
              (Forall_nil _) Hst latest_ok_start) as (st & Hred & _ & HA).
  exists (GithubActions.values st). split.
  - rewrite (status_loaded E wn v items evs Hev Hit Hw), Hred. reflexivity.
  - intros e He. destruct (HA e He) as (e' & Hf & He' & Hn & Hold).
    exists e'. repeat split; auto.
    exact (find_key_In (name_of e) st (GithubActions.entry_of e') Hf).
Qed.

(** The two runs of "CI": the answer holds the run stamped 2024-01-02, the
    only one that is not older than it. *)
Lemma latest_stamp_wins_witness :
  exists entries,
    GithubActions.get_workflow_status
      (Sample.world [] (Loaded (JArr Sample.two_runs))) None
    = Return (JArr entries)
    /\ In (JObj [ ("workflow_name", JStr "CI"); ("run_id", JInt 2);
                  ("status", JStr "completed"); ("conclusion", JStr "success");
                  ("updated_at", JStr "2024-01-02T00:00:00Z") ]) entries.
Proof.
  destruct (latest_stamp_wins (Sample.world [] (Loaded (JArr Sample.two_runs))) None
              (JArr Sample.two_runs) Sample.two_runs
              [ Sample.run_fields "CI" 1 (Some Sample.jan1);
                Sample.run_fields "CI" 2 (Some Sample.jan2) ]
              eq_refl eq_refl eq_refl sample_two_runs_stamped) as (entries & H & Hall).
  exists entries. split; [exact H|].
  destruct (Hall (Sample.run_fields "CI" 2 (Some Sample.jan2)) (or_intror (or_introl eq_refl)))
    as (e' & [<-|[<-|[]]] & _ & Hold & Hin).
  - exfalso. specialize (Hold Sample.jan1 Sample.jan2 eq_refl eq_refl). discriminate Hold.
  - exact Hin.
Defined.

(* ================================================================= *)
(** * Further properties of the tools *)

(** ** [GithubActions.analyze_file_changes]: when it reports an error *)

Lemma report_is_no_error (r : result json) :
  is_report_result r -> ~ is_error_object_result r.
Proof.
  intros (f & -> & Hf) (f' & t & [= <-] & Ht). congruence.
Qed.

(** [analyze_file_changes] of the github-actions module returns a report
    (an object without [error] key) exactly when [git diff --name-status]
    exits with status 0 and each later command can be started; the exit
    status of [git diff --stat], [git diff] and [git log] is never looked
    at.  In every other case it returns an error object. *)
Theorem analyze_file_changes_error_iff :
  forall (E : env) (base_branch : string) (include_diff : bool) (max_diff_lines : Z),
    (git_usable E base_branch include_diff = true <->
     is_report_result
       (GithubActions.analyze_file_changes E base_branch include_diff max_diff_lines))
    /\ (git_usable E base_branch include_diff = false <->
        is_error_object_result
          (GithubActions.analyze_file_changes E base_branch include_diff max_diff_lines)).
Proof.
  intros E b i M.
  assert (H : if git_usable E b i
              then is_report_result (GithubActions.analyze_file_changes E b i M)
              else is_error_object_result (GithubActions.analyze_file_changes E b i M)).
  { unfold git_usable, GithubActions.analyze_file_changes, subprocess_run,
      names_argv, stat_argv, diff_argv, log_argv.
    destruct (run E (getcwd E) ["git"; "diff"; "--name-status"; b ++ "...HEAD"])
      as [rc1 o1 e1|x1]; simpl.
    2:{ destruct x1; eexists _, _; split; reflexivity. }
    destruct (rc1 =? 0); simpl; [|eexists _, _; split; reflexivity].
    destruct (run E (getcwd E) ["git"; "diff"; "--stat"; b ++ "...HEAD"])
      as [rc2 o2 e2|x2]; simpl.
    2:{ destruct x2; eexists _, _; split; reflexivity. }
    destruct i; simpl.
    - destruct (run E (getcwd E) ["git"; "diff"; b ++ "...HEAD"])
        as [rc3 o3 e3|x3]; simpl.
      2:{ destruct x3; eexists _, _; split; reflexivity. }
      destruct (GithubActions.limit_diff o3 M) as [[d t] n]. simpl.
      destruct (run E (getcwd E) ["git"; "log"; "--oneline"; b ++ "..HEAD"])
        as [rc4 o4 e4|x4]; simpl.
      + eexists. split; reflexivity.
      + destruct x4; eexists _, _; split; reflexivity.
    - destruct (run E (getcwd E) ["git"; "log"; "--oneline"; b ++ "..HEAD"])
        as [rc4 o4 e4|x4]; simpl.
      + eexists. split; reflexivity.
      + destruct x4; eexists _, _; split; reflexivity. }
  destruct (git_usable E b i); split; split; try discriminate; auto;
    intros H'; exfalso.
  - now apply (report_is_no_error _ H).
  - now apply (report_is_no_error _ H').
Qed.

(** ** [GithubActions.analyze_file_changes]: what it depends on *)

(** The answer of [analyze_file_changes] is fixed by the outcome of the
    commands it runs in the current directory: two worlds that agree on
    these (and differ in anything else: other commands, other directories,
    templates, event log, MCP roots) give the same answer.  With
    [include_diff=false] the plain [git diff] is not among them. *)
Theorem analyze_file_changes_frame :
  forall (E E' : env) (base_branch : string) (include_diff : bool) (max_diff_lines : Z),
    (forall argv, In argv (commands base_branch include_diff) ->
                  run E (getcwd E) argv = run E' (getcwd E') argv) ->
    GithubActions.analyze_file_changes E base_branch include_diff max_diff_lines
    = GithubActions.analyze_file_changes E' base_branch include_diff max_diff_lines.
Proof.
  intros E E' b i M H.
  assert (H1 : run E (getcwd E) (names_argv b) = run E' (getcwd E') (names_argv b))
    by (apply H; simpl; auto).
  assert (H2 : run E (getcwd E) (stat_argv b) = run E' (getcwd E') (stat_argv b))
    by (apply H; simpl; auto).
  assert (H4 : run E (getcwd E) (log_argv b) = run E' (getcwd E') (log_argv b))
    by (apply H; unfold commands; destruct i; simpl; auto).
  unfold GithubActions.analyze_file_changes, subprocess_run.
  unfold names_argv, stat_argv, log_argv in *. rewrite H1, H2, H4.
  destruct (run E' (getcwd E') ["git"; "diff"; "--name-status"; b ++ "...HEAD"])
    as [rc1 o1 e1|x1]; simpl; [|destruct x1; reflexivity].
  destruct (rc1 =? 0); simpl; [|reflexivity].
  destruct (run E' (getcwd E') ["git"; "diff"; "--stat"; b ++ "...HEAD"])
    as [rc2 o2 e2|x2]; simpl; [|destruct x2; reflexivity].
  destruct i; simpl.
  - assert (H3 : run E (getcwd E) (diff_argv b) = run E' (getcwd E') (diff_argv b))
      by (apply H; simpl; auto).
    unfold diff_argv in H3. rewrite H3.
    destruct (run E' (getcwd E') ["git"; "diff"; b ++ "...HEAD"])
      as [rc3 o3 e3|x3]; simpl; [|destruct x3; reflexivity].
    destruct (GithubActions.limit_diff o3 M) as [[d t] n]. simpl.
    destruct (run E' (getcwd E') ["git"; "log"; "--oneline"; b ++ "..HEAD"])
      as [rc4 o4 e4|x4]; simpl; [reflexivity | destruct x4; reflexivity].
  - destruct (run E' (getcwd E') ["git"; "log"; "--oneline"; b ++ "..HEAD"])
      as [rc4 o4 e4|x4]; simpl; [reflexivity | destruct x4; reflexivity].
Qed.

(** Without the diff, a git whose plain [git diff] fails changes nothing,
    nor do the templates or the event log. *)
Lemma analyze_file_changes_frame_witness :
  GithubActions.analyze_file_changes (Sample.world [] Missing) "main" false 500
  = GithubActions.analyze_file_changes
      (Sample.world_diff_fails Sample.all_templates (Loaded (JArr Sample.two_runs)))
      "main" false 500.
Proof.
  apply (analyze_file_changes_frame (Sample.world [] Missing)
           (Sample.world_diff_fails Sample.all_templates (Loaded (JArr Sample.two_runs)))
           "main" false 500).
  intros argv Hin. simpl in Hin.
  destruct Hin as [<-|[<-|[<-|[]]]]; reflexivity.
Defined.

(** ** [GithubActions.get_pr_templates]: the listing *)

Lemma read_templates_returns (E : env) (table : list (string * string)) (ts : list json) :
  GithubActions.read_templates E table = Return ts ->
  Forall2 (fun ft t => exists c, readable E (fst ft) c /\ t = template (fst ft) (snd ft) c)
    table ts.
Proof.
  revert ts. induction table as [|[f l] table IH]; simpl; intros ts H.
  - injection H as <-. constructor.
  - unfold read_text in H.
    destruct (find_file f (templates_dir E)) as [[c|x]|] eqn:Hf; simpl in H;
      try discriminate.
    destruct (GithubActions.read_templates E table) as [rest|]; simpl in H;
      [|discriminate].
    injection H as <-. constructor; [|now apply IH].
    exists c. split; [exact Hf | reflexivity].
Qed.

Lemma read_templates_first_failure (E : env) (pre post : list (string * string))
    (f label : string) (e : exn) :
  Forall (fun ft => exists c, readable E (fst ft) c) pre ->
  read_text E f = Raise e ->
  GithubActions.read_templates E (pre ++ (f, label) :: post) = Raise e.
Proof.
  intros Hpre Hf. induction Hpre as [|[g l] pre (c & Hc) _ IH]; simpl.
  - now rewrite Hf.
  - unfold read_text at 1. unfold readable in Hc. simpl in Hc. rewrite Hc. simpl.
    now rewrite IH.
Qed.

Lemma Forall2_left {A B : Type} (R : A -> B -> Prop) (P : A -> Prop)
    (l : list A) (l' : list B) :
  (forall a b, R a b -> P a) -> Forall2 R l l' -> Forall P l.
Proof. intros H HF. induction HF; constructor; eauto. Qed.

Lemma get_pr_templates_returns (E : env) (v : json) :
  GithubActions.get_pr_templates E = Return v ->
  exists ts,
    v = JArr ts
    /\ Forall2 (fun ft t => exists c, readable E (fst ft) c
                                      /\ t = template (fst ft) (snd ft) c)
         GithubActions.DEFAULT_TEMPLATES ts.
Proof.
  intros H. unfold GithubActions.get_pr_templates in H.
  destruct (GithubActions.read_templates E GithubActions.DEFAULT_TEMPLATES)
    as [ts|] eqn:Hr; simpl in H; [|discriminate].
  injection H as <-. exists ts. split; [reflexivity|].
  now apply read_templates_returns.
Qed.

Lemma returns_defaults_readable (E : env) (v : json) :
  GithubActions.get_pr_templates E = Return v -> defaults_readable E.
Proof.
  intros H. destruct (get_pr_templates_returns E v H) as (ts & _ & HF).
  unfold defaults_readable. eapply Forall2_left; [|exact HF].
  intros ft t (c & Hc & _). now exists c.
Qed.

(** [get_pr_templates] of the github-actions module returns exactly when
    all seven files of [DEFAULT_TEMPLATES] can be read; it then lists one
    item per table entry, in table order, with the table's label as [type]
    and the file's text as [content] (other files of the directory are not
    listed).  Otherwise the exception of the first unreadable or missing
    file, in table order, leaves the tool. *)
Theorem get_pr_templates_listing :
  forall (E : env),
    ((exists v, GithubActions.get_pr_templates E = Return v) <-> defaults_readable E)
    /\ (forall v, GithubActions.get_pr_templates E = Return v ->
          exists ts,
            v = JArr ts
            /\ Forall2 (fun ft t => exists c, readable E (fst ft) c
                                              /\ t = template (fst ft) (snd ft) c)
                 GithubActions.DEFAULT_TEMPLATES ts)
    /\ (forall pre post f label e,
          GithubActions.DEFAULT_TEMPLATES = (pre ++ (f, label) :: post)%list ->
          Forall (fun ft => exists c, readable E (fst ft) c) pre ->
          read_text E f = Raise e ->
          GithubActions.get_pr_templates E = Raise e).
Proof.
  intros E. split; [|split].
  - split.
    + intros (v & H). now apply (returns_defaults_readable E v).
    + intros H. destruct (get_pr_templates_readable E H)
        as (c1 & c2 & c3 & c4 & c5 & c6 & c7 & _ & Hget). eauto.
  - apply get_pr_templates_returns.
  - intros pre post f label e Htab Hpre Hf.
    unfold GithubActions.get_pr_templates. rewrite Htab.
    now rewrite (read_templates_first_failure E pre post f label e Hpre Hf).
Qed.

(** With [bug.md] readable and [feature.md] missing, the exception names
    [feature.md]. *)
Lemma get_pr_templates_listing_witness :
  GithubActions.get_pr_templates (Sample.world [ ("bug.md", Text "## Bug") ] Missing)
  = Raise (PyError "FileNotFoundError" "[Errno 2] No such file or directory: 'feature.md'").
Proof.
  apply (proj2 (proj2 (get_pr_templates_listing
                         (Sample.world [ ("bug.md", Text "## Bug") ] Missing)))
           [ ("bug.md", "Bug Fix") ]
           [ ("docs.md", "Documentation"); ("refactor.md", "Refactor"); ("test.md", "Test");
             ("performance.md", "Performance"); ("security.md", "Security") ]
           "feature.md" "Feature").
  - reflexivity.
  - repeat constructor. now exists "## Bug".
  - reflexivity.
Defined.

(** ** [GithubActions.suggest_template]: composition with the listing *)

Lemma lookup_default_listed (key : string) :
  In (GithubActions.lookup_default key "feature.md" GithubActions.TYPE_MAPPING)
     (List.map fst GithubActions.DEFAULT_TEMPLATES).
Proof.
  unfold GithubActions.lookup_default.
  destruct (GithubActions.lookup key GithubActions.TYPE_MAPPING) as [f|] eqn:Hl.
  - apply lookup_In in Hl. simpl in Hl.
    repeat (destruct Hl as [[= _ <-]|Hl]; [simpl; tauto|]). contradiction.
  - simpl. tauto.
Qed.

(** [suggest_template] of the github-actions module adds no failure of its
    own: it raises exactly what [get_pr_templates] raises, and when the
    listing returns, the recommendation is an item of that listing, namely
    the one whose [filename] the table gives for the lower-cased change type
    ([feature.md] for an unknown type), and [template_content] is that
    item's [content].  The fallback [templates[0]] is never what decides. *)
Theorem suggest_template_composes :
  forall (E : env) (summary change_type : string),
    match GithubActions.get_pr_templates E with
    | Raise e => GithubActions.suggest_template E summary change_type = Raise e
    | Return v =>
        exists ts t content,
          v = JArr ts /\ In t ts
          /\ field "filename" t
             = Some (JStr (GithubActions.lookup_default (lower change_type) "feature.md"
                             GithubActions.TYPE_MAPPING))
          /\ field "content" t = Some (JStr content)
          /\ GithubActions.suggest_template E summary change_type
             = Return (suggestion t content summary change_type)
    end.
Proof.
  intros E summary ct.
  destruct (GithubActions.get_pr_templates E) as [v|e] eqn:Hget.
  2:{ unfold GithubActions.suggest_template. now rewrite Hget. }
  pose proof (returns_defaults_readable E v Hget) as Hr.
  destruct (get_pr_templates_readable E Hr)
    as (c1 & c2 & c3 & c4 & c5 & c6 & c7 & (R1 & R2 & R3 & R4 & R5 & R6 & R7) & Hlist).
  rewrite Hget in Hlist. injection Hlist as ->.
  pose proof (lookup_default_listed (lower ct)) as Hin.
  destruct (suggest_template_selects E summary ct _ Hr Hin eq_refl)
    as (label & content & Hl & Hread & Heq).
  eexists _, (template _ label content), content.
  split; [reflexivity|]. split; [|repeat split; try reflexivity; exact Heq].
  unfold readable in *.
  remember (GithubActions.lookup_default (lower ct) "feature.md" GithubActions.TYPE_MAPPING)
    as f eqn:Hf. clear Hf Heq.
  simpl in Hin.
  repeat (destruct Hin as [<-|Hin];
          [ simpl in Hl; injection Hl as <-;
            match goal with
            | R : find_file ?n _ = Some (Text ?c) , R' : find_file ?n _ = Some (Text content) |- _ =>
                rewrite R in R'; injection R' as <-
            end; simpl; tauto |]).
  contradiction.
Qed.

(** ** The two [suggest_template] variants agree on the shared change types *)

Lemma type_map_included (key f : string) :
  BuildMcpServer.lookup key BuildMcpServer.type_map = Some f ->
  GithubActions.lookup key GithubActions.TYPE_MAPPING = Some f.
Proof.
  intros H. apply build_lookup_In in H. simpl in H.
  repeat (destruct H as [[= <- <-]|H]; [reflexivity|]). contradiction.
Qed.

(** Every change type the build-mcp-server table knows is mapped to the same
    file by the github-actions table; so, with the template files readable,
    both [suggest_template] variants recommend the same file with the same
    [template_content] for it. *)
Theorem suggest_template_variants_agree :
  forall (E : env) (summary change_type f : string),
    BuildMcpServer.lookup (lower change_type) BuildMcpServer.type_map = Some f ->
    defaults_readable E ->
    GithubActions.lookup (lower change_type) GithubActions.TYPE_MAPPING = Some f
    /\ exists label content,
         BuildMcpServer.suggest_template E summary change_type
         = Return (JObj [ ("recommended_template", JStr f);
                          ("template_content", JStr content) ])
         /\ GithubActions.suggest_template E summary change_type
            = Return (suggestion (template f label content) content summary change_type).
Proof.
  intros E summary ct f Hb Hr.
  pose proof (type_map_included _ _ Hb) as Hg. split; [exact Hg|].
  destruct (suggest_template_selects E summary ct f Hr) as (label & content & _ & Hc & Heq).
  - apply lookup_In in Hg. simpl in Hg.
    repeat (destruct Hg as [[= _ <-]|Hg]; [simpl; tauto|]). contradiction.
  - unfold GithubActions.lookup_default. now rewrite Hg.
  - exists label, content. split; [|exact Heq].
    unfold BuildMcpServer.suggest_template. rewrite Hb.
    unfold exists_, read_text. unfold readable in Hc. rewrite Hc.
    apply build_lookup_In in Hb. simpl in Hb.
    repeat (destruct Hb as [[= _ <-]|Hb]; [reflexivity|]). contradiction.
Qed.

(** "Performance" in a world holding the seven templates. *)
Lemma suggest_template_variants_agree_witness :
  exists label content,
    BuildMcpServer.suggest_template (Sample.world Sample.all_templates Missing)
      "cache the index" "Performance"
    = Return (JObj [ ("recommended_template", JStr "performance.md");
                     ("template_content", JStr content) ])
    /\ GithubActions.suggest_template (Sample.world Sample.all_templates Missing)
         "cache the index" "Performance"
       = Return (suggestion (template "performance.md" label content) content
                   "cache the index" "Performance").
Proof.
  exact (proj2 (suggest_template_variants_agree
                  (Sample.world Sample.all_templates Missing)
                  "cache the index" "Performance" "performance.md"
                  eq_refl (sample_defaults_readable Missing))).
Defined.

(** ** [BuildMcpServer.get_pr_templates]: the listing *)

Lemma string_length_app (a b : string) :
  String.length (a ++ b) = (String.length a + String.length b)%nat.
Proof. induction a as [|c a IH]; simpl; [reflexivity | now rewrite IH]. Qed.

Lemma ends_with_split (suffix s : string) :
  ends_with suffix s = true -> exists base, s = (base ++ suffix)%string.
Proof.
  induction s as [|c s IH]; cbn [ends_with]; intros H.
  - rewrite orb_false_r in H. apply String.eqb_eq in H. subst. now exists "".
  - apply orb_true_iff in H as [H|H].
    + apply String.eqb_eq in H. subst. now exists "".
    + destruct (IH H) as (base & ->). now exists (String c base).
Qed.

Lemma rfind_app (c : ascii) (a b : string) :
  BuildMcpServer.rfind c (a ++ b)
  = match BuildMcpServer.rfind c b with
    | Some i => Some (String.length a + i)%nat
    | None => BuildMcpServer.rfind c a
    end.
Proof.
  induction a as [|d a IH]; simpl.
  - destruct (BuildMcpServer.rfind c b); reflexivity.
  - rewrite IH. destruct (BuildMcpServer.rfind c b); reflexivity.
Qed.

Lemma substring_prefix (a b : string) : substring 0 (String.length a) (a ++ b) = a.
Proof.
  induction a as [|c a IH]; simpl.
  - destruct b; reflexivity.
  - now rewrite IH.
Qed.

(** [stem] takes the extension [.md] off. *)
Lemma stem_md (base : string) :
  base <> "" -> BuildMcpServer.stem (base ++ ".md") = base.
Proof.
  intros Hb. unfold BuildMcpServer.stem. rewrite rfind_app.
  change (BuildMcpServer.rfind "." ".md") with (Some 0%nat). cbv beta iota.
  rewrite Nat.add_0_r, string_length_app. simpl String.length.
  assert (Hlen : (0 < String.length base)%nat) by (destruct base; [contradiction|simpl; lia]).
  destruct (Nat.ltb_spec 0 (String.length base)); [|lia].
  destruct (Nat.ltb_spec (String.length base) (String.length base + 3 - 1)); [|lia].
  simpl. apply substring_prefix.
Qed.

Lemma build_read_templates_returns (E : env) (names : list string) (ts : list json) :
  BuildMcpServer.read_templates E names = Return ts ->
  Forall2 (fun name t => exists c, readable E name c /\ t = build_template name c) names ts.
Proof.
  revert ts. induction names as [|f names IH]; simpl; intros ts H.
  - injection H as <-. constructor.
  - unfold read_text in H.
    destruct (find_file f (templates_dir E)) as [[c|x]|] eqn:Hf; simpl in H;
      try discriminate.
    destruct (BuildMcpServer.read_templates E names) as [rest|]; simpl in H;
      [|discriminate].
    injection H as <-. constructor; [|now apply IH].
    exists c. split; [exact Hf | reflexivity].
Qed.

Lemma build_read_templates_readable (E : env) (names : list string) :
  Forall (fun name => exists c, readable E name c) names ->
  exists ts, BuildMcpServer.read_templates E names = Return ts.
Proof.
  induction 1 as [|f names (c & Hc) _ (ts & IH)]; simpl; [eauto|].
  unfold read_text. unfold readable in Hc. rewrite Hc. simpl. rewrite IH. simpl. eauto.
Qed.

Lemma build_read_templates_first_failure (E : env) (pre post : list string)
    (f : string) (e : exn) :
  Forall (fun name => exists c, readable E name c) pre ->
  read_text E f = Raise e ->
  BuildMcpServer.read_templates E (pre ++ f :: post) = Raise e.
Proof.
  intros Hpre Hf. induction Hpre as [|g pre (c & Hc) _ IH]; simpl.
  - now rewrite Hf.
  - unfold read_text at 1. unfold readable in Hc. rewrite Hc. simpl. now rewrite IH.
Qed.

(** [get_pr_templates] of the build-mcp-server module lists one item per
    directory entry whose name ends in [.md], in directory order, and no
    other entry; an item holds the file name, the file's text, and as
    [name] the file name without its [.md] (for every name but [.md]
    itself).  If every such file can be read the tool returns the list;
    at the first one that cannot, it returns the error object
    [{"error": "Failed to read templates", "details": str(e)}]. *)
Theorem build_get_pr_templates_listing :
  forall (E : env),
    (forall ts, BuildMcpServer.get_pr_templates E = Return (JArr ts) ->
       Forall2 (fun name t => exists c, readable E name c /\ t = build_template name c)
         (glob_md E) ts)
    /\ (Forall (fun name => exists c, readable E name c) (glob_md E) ->
        exists ts, BuildMcpServer.get_pr_templates E = Return (JArr ts))
    /\ (forall name, In name (glob_md E) ->
          In name (List.map fst (templates_dir E))
          /\ (name <> ".md" -> (BuildMcpServer.stem name ++ ".md")%string = name))
    /\ (forall pre post f e,
          glob_md E = (pre ++ f :: post)%list ->
          Forall (fun name => exists c, readable E name c) pre ->
          read_text E f = Raise e ->
          BuildMcpServer.get_pr_templates E
          = Return (JObj [ ("error", JStr "Failed to read templates");
                           ("details", JStr (str_exn E e)) ])).
Proof.
  intros E. split; [|split; [|split]].
  - intros ts H. unfold BuildMcpServer.get_pr_templates in H.
    destruct (BuildMcpServer.read_templates E (glob_md E)) as [ts'|] eqn:Hr;
      simpl in H; [|discriminate].
    injection H as <-. now apply build_read_templates_returns.
  - intros H. destruct (build_read_templates_readable E _ H) as (ts & Hr).
    exists ts. unfold BuildMcpServer.get_pr_templates. now rewrite Hr.
  - intros name Hin. unfold glob_md in Hin. apply filter_In in Hin as [Hin Hmd].
    split; [assumption|]. intros Hne.
    destruct (ends_with_split _ _ Hmd) as (base & ->).
    rewrite stem_md; [reflexivity|]. intros ->. now apply Hne.
  - intros pre post f e Hg Hpre Hf. unfold BuildMcpServer.get_pr_templates.
    rewrite Hg, (build_read_templates_first_failure E pre post f e Hpre Hf). reflexivity.
Qed.

(** A directory with a readable template, a note and an unreadable template. *)
Lemma build_get_pr_templates_listing_witness :
  BuildMcpServer.get_pr_templates
    (Sample.world [ ("bug.md", Text "## Bug"); ("notes.txt", Text "n");
                    ("docs.md", Unreadable (PyError "PermissionError" "denied")) ] Missing)
  = Return (JObj [ ("error", JStr "Failed to read templates");
                   ("details", JStr "denied") ])
  /\ (BuildMcpServer.stem "bug.md" ++ ".md")%string = "bug.md".
Proof.
  split.
  - apply (proj2 (proj2 (proj2 (build_get_pr_templates_listing
             (Sample.world [ ("bug.md", Text "## Bug"); ("notes.txt", Text "n");
                             ("docs.md", Unreadable (PyError "PermissionError" "denied")) ]
                Missing)))) [ "bug.md" ] [] "docs.md"
             (PyError "PermissionError" "denied")).
    + reflexivity.
    + repeat constructor. now exists "## Bug".
    + reflexivity.
  - reflexivity.
Defined.

(** ** [BuildMcpServer.suggest_template]: the shapes of the answer *)

Lemma type_map_values_nonempty (key f : string) :
  BuildMcpServer.lookup key BuildMcpServer.type_map = Some f ->
  negb (String.eqb f "") = true.
Proof.
  intros H. apply build_lookup_In in H. simpl in H.
  repeat (destruct H as [[= _ <-]|H]; [reflexivity|]). contradiction.
Qed.

(** [suggest_template] of the build-mcp-server module always returns an
    object, and never one with both a recommendation and an error: either
    the two fields [recommended_template], [template_content] for a mapped
    type whose file is readable, or an object with an [error] text and no
    [recommended_template].  A mapped type whose file is missing gives
    "Template '<file>' not found."; a mapped type whose file cannot be read
    gives "Failed to suggest template" with the exception text. *)
Theorem build_suggest_template_shapes :
  forall (E : env) (summary change_type : string),
    (exists fields,
       BuildMcpServer.suggest_template E summary change_type = Return (JObj fields)
       /\ ((exists f c,
              BuildMcpServer.lookup (lower change_type) BuildMcpServer.type_map = Some f
              /\ readable E f c
              /\ fields = [ ("recommended_template", JStr f); ("template_content", JStr c) ])
           \/ (exists text,
                 dict_get "error" fields = Some (JStr text)
                 /\ dict_get "recommended_template" fields = None)))
    /\ (forall f,
          BuildMcpServer.lookup (lower change_type) BuildMcpServer.type_map = Some f ->
          find_file f (templates_dir E) = None ->
          BuildMcpServer.suggest_template E summary change_type
          = Return (JObj [ ("error", JStr ("Template '" ++ f ++ "' not found.")) ]))
    /\ (forall f e,
          BuildMcpServer.lookup (lower change_type) BuildMcpServer.type_map = Some f ->
          find_file f (templates_dir E) = Some (Unreadable e) ->
          BuildMcpServer.suggest_template E summary change_type
          = Return (JObj [ ("error", JStr "Failed to suggest template");
                           ("details", JStr (str_exn E e)) ])).
Proof.
  intros E summary ct. split; [|split].
  - unfold BuildMcpServer.suggest_template.
    destruct (BuildMcpServer.lookup (lower ct) BuildMcpServer.type_map) as [f|] eqn:Hl.
    + rewrite (type_map_values_nonempty _ _ Hl). unfold exists_, read_text.
      destruct (find_file f (templates_dir E)) as [[c|x]|] eqn:Hf; simpl.
      * eexists. split; [reflexivity|]. left. exists f, c. auto.
      * eexists. split; [reflexivity|]. right. eexists. split; reflexivity.
      * eexists. split; [reflexivity|]. right. eexists. split; reflexivity.
    + destruct (BuildMcpServer.read_templates E (glob_md E)); simpl;
        eexists; (split; [reflexivity|]); right; eexists; split; reflexivity.
  - intros f Hl Hf. unfold BuildMcpServer.suggest_template.
    rewrite Hl, (type_map_values_nonempty _ _ Hl). unfold exists_. now rewrite Hf.
  - intros f e Hl Hf. unfold BuildMcpServer.suggest_template.
    rewrite Hl, (type_map_values_nonempty _ _ Hl). unfold exists_, read_text.
    now rewrite Hf.
Qed.

(** "bug" with an empty template directory, and with an unreadable [bug.md]. *)
Lemma build_suggest_template_shapes_witness :
  BuildMcpServer.suggest_template (Sample.world [] Missing) "fix a crash" "bug"
  = Return (JObj [ ("error", JStr "Template 'bug.md' not found.") ])
  /\ BuildMcpServer.suggest_template
       (Sample.world [ ("bug.md", Unreadable (PyError "PermissionError" "denied")) ] Missing)
       "fix a crash" "bug"
     = Return (JObj [ ("error", JStr "Failed to suggest template");
                      ("details", JStr "denied") ]).
Proof.
  split.
  - exact (proj1 (proj2 (build_suggest_template_shapes (Sample.world [] Missing)
                           "fix a crash" "bug")) "bug.md" eq_refl eq_refl).
  - exact (proj2 (proj2 (build_suggest_template_shapes
                           (Sample.world [ ("bug.md", Unreadable (PyError "PermissionError" "denied")) ]
                              Missing)
                           "fix a crash" "bug")) "bug.md" (PyError "PermissionError" "denied")
             eq_refl eq_refl).
Defined.

(** ** [get_recent_actions_events]: bounds, and documents that are no array *)

Lemma last_n_suffix {A : Type} (n m : nat) (xs : list A) :
  (n <= m)%nat -> exists extra, last_n m xs = (extra ++ last_n n xs)%list.
Proof.
  intros Hnm. unfold last_n.
  exists (firstn (List.length xs - n - (List.length xs - m))
            (skipn (List.length xs - m) xs)).
  rewrite <- (firstn_skipn (List.length xs - n - (List.length xs - m))
                (skipn (List.length xs - m) xs)) at 1.
  f_equal. rewrite skipn_skipn. f_equal. lia.
Qed.

(** With an array on disk and a limit of at least 1, the tool returns a
    suffix of the log that holds [min(limit, len(log))] events, never more
    than the limit; and what a smaller limit returns is a suffix of what a
    larger limit returns. *)
Theorem recent_events_bounded :
  forall (E : env) (log : list json) (limit : Z),
    events E = Loaded (JArr log) -> 1 <= limit ->
    exists older recent,
      log = (older ++ recent)%list
      /\ GithubActions.get_recent_actions_events E limit = Return (JArr recent)
      /\ List.length recent = Nat.min (Z.to_nat limit) (List.length log)
      /\ forall larger, limit <= larger ->
           exists extra,
             GithubActions.get_recent_actions_events E larger
             = Return (JArr (extra ++ recent)%list).
Proof.
  intros E log limit Hev Hl.
  exists (firstn (List.length log - Z.to_nat limit) log), (last_n (Z.to_nat limit) log).
  repeat split.
  - unfold last_n. now rewrite firstn_skipn.
  - rewrite (recent_events_loaded E log limit Hev). now rewrite slice_from_last_n.
  - unfold last_n. rewrite length_skipn. lia.
  - intros larger Hlarger.
    destruct (last_n_suffix (Z.to_nat limit) (Z.to_nat larger) log) as (extra & Hx); [lia|].
    exists extra. rewrite (recent_events_loaded E log larger Hev).
    rewrite slice_from_last_n by lia. now rewrite Hx.
Qed.

(** Three events, limit 2: the last two; limit 5: all three. *)
Lemma recent_events_bounded_witness :
  exists older recent,
    [ JInt 1; JInt 2; JInt 3 ] = (older ++ recent)%list
    /\ GithubActions.get_recent_actions_events
         (Sample.world [] (Loaded (JArr [ JInt 1; JInt 2; JInt 3 ]))) 2
       = Return (JArr recent)
    /\ List.length recent = 2%nat.
Proof.
  destruct (recent_events_bounded
              (Sample.world [] (Loaded (JArr [ JInt 1; JInt 2; JInt 3 ])))
              [ JInt 1; JInt 2; JInt 3 ] 2 eq_refl ltac:(discriminate))
    as (older & recent & H1 & H2 & H3 & _).
  exists older, recent. repeat split; assumption.
Defined.

Lemma string_of_list_ascii_app (a b : list ascii) :
  string_of_list_ascii (a ++ b) = (string_of_list_ascii a ++ string_of_list_ascii b)%string.
Proof. induction a as [|c a IH]; simpl; [reflexivity | now rewrite IH]. Qed.

(** When the event log holds a JSON document that is no array:
    an object, a number, a boolean or null makes the tool return the error
    object [{"error": "Failed to read events: ..."}], because the slice
    [events[-limit:]] raises; a JSON string is sliced like a list, so the
    tool returns a suffix of that string. *)
Theorem recent_events_document_kinds :
  forall (E : env) (v : json) (limit : Z),
    events E = Loaded v ->
    match v with
    | JArr log =>
        GithubActions.get_recent_actions_events E limit
        = Return (JArr (slice_from (- limit) log))
    | JStr s =>
        exists head tail,
          s = (head ++ tail)%string
          /\ GithubActions.get_recent_actions_events E limit = Return (JStr tail)
    | _ =>
        exists text,
          GithubActions.get_recent_actions_events E limit
          = Return (JObj [ ("error", JStr ("Failed to read events: " ++ text)) ])
    end.
Proof.
  intros E v limit Hev.
  unfold GithubActions.get_recent_actions_events, GithubActions.exists_events,
    GithubActions.load_events. rewrite Hev.
  destruct v; simpl; try (eexists; reflexivity).
  unfold slice_from.
  exists (string_of_list_ascii
            (firstn (clamp (List.length (list_ascii_of_string s)) (- limit))
               (list_ascii_of_string s))).
  eexists. split; [|reflexivity].
  rewrite <- string_of_list_ascii_app, firstn_skipn.
  now rewrite string_of_list_ascii_of_string.
Qed.

(** A log file holding the JSON object [{}], and one holding the string
    "abc". *)
Lemma recent_events_document_kinds_witness :
  (exists text,
     GithubActions.get_recent_actions_events (Sample.world [] (Loaded (JObj []))) 10
     = Return (JObj [ ("error", JStr ("Failed to read events: " ++ text)) ]))
  /\ exists head tail,
       "abc" = (head ++ tail)%string
       /\ GithubActions.get_recent_actions_events (Sample.world [] (Loaded (JStr "abc"))) 2
          = Return (JStr tail).
Proof.
  split.
  - exact (recent_events_document_kinds (Sample.world [] (Loaded (JObj []))) (JObj []) 10
             eq_refl).
  - exact (recent_events_document_kinds (Sample.world [] (Loaded (JStr "abc"))) (JStr "abc") 2
             eq_refl).
Defined.

(** ** [get_workflow_status]: events of other kinds, and a single run *)

Lemma workflow_run_events_kept (evs : list GithubActions.dict) :
  Forall (fun e => get "event" e = JStr "workflow_run") evs ->
  GithubActions.workflow_run_events (List.map JObj evs) = Return evs.
Proof.
  induction 1 as [|e evs He _ IH]; simpl; [reflexivity|].
  rewrite IH. simpl. rewrite He. reflexivity.
Qed.

Lemma workflow_run_events_idem (items : list json) (evs : list GithubActions.dict) :
  GithubActions.workflow_run_events items = Return evs ->
  GithubActions.workflow_run_events (List.map JObj evs) = Return evs.
Proof.
  intros H. apply workflow_run_events_kept. apply Forall_forall. intros e He.
  now apply (workflow_run_events_spec items evs H e).
Qed.

Lemma str_exn_with_events (E : env) (log : events_file) (e : exn) :
  str_exn (with_events E log) e = str_exn E e.
Proof. destruct e; reflexivity. Qed.

(** [get_workflow_status] looks at the workflow_run events only: on a log
    of JSON objects its answer is the answer on the log with every other
    event removed; in particular a log without workflow_run events (the
    empty log included) gives the empty list. *)
Theorem workflow_status_ignores_other_events :
  forall (E : env) (wn : option string) (items : list json) (evs : list GithubActions.dict),
    events E = Loaded (JArr items) ->
    GithubActions.workflow_run_events items = Return evs ->
    GithubActions.get_workflow_status E wn
    = GithubActions.get_workflow_status
        (with_events E (Loaded (JArr (List.map JObj evs)))) wn
    /\ (evs = [] -> GithubActions.get_workflow_status E wn = Return (JArr [])).
Proof.
  intros E wn items evs Hev Hw. split.
  - rewrite (status_loaded E wn (JArr items) items evs Hev eq_refl Hw).
    rewrite (status_loaded (with_events E (Loaded (JArr (List.map JObj evs)))) wn
               (JArr (List.map JObj evs)) (List.map JObj evs) evs eq_refl eq_refl
               (workflow_run_events_idem items evs Hw)).
    destruct (GithubActions.reduce _ _); [reflexivity|].
    now rewrite str_exn_with_events.
  - intros ->. rewrite (status_loaded E wn (JArr items) items [] Hev eq_refl Hw).
    destruct wn as [n|]; simpl; [destruct (negb (String.eqb n ""))|]; reflexivity.
Qed.

(** A push event between the two runs changes nothing. *)
Lemma workflow_status_ignores_other_events_witness :
  GithubActions.get_workflow_status (Sample.world [] (Loaded (JArr Sample.two_runs))) None
  = GithubActions.get_workflow_status
      (with_events (Sample.world [] (Loaded (JArr Sample.two_runs)))
         (Loaded (JArr [ Sample.run_event "CI" 1 (Some Sample.jan1);
                         Sample.run_event "CI" 2 (Some Sample.jan2) ]))) None.
Proof.
  exact (proj1 (workflow_status_ignores_other_events
                  (Sample.world [] (Loaded (JArr Sample.two_runs))) None Sample.two_runs
                  [ Sample.run_fields "CI" 1 (Some Sample.jan1);
                    Sample.run_fields "CI" 2 (Some Sample.jan2) ]
                  eq_refl eq_refl)).
Defined.

(** A log with exactly one workflow_run event [e] (that passes the name
    filter) gives the one-entry list with the projection of [e], whatever
    [e] lacks: missing [run_id], [status], [conclusion] or [updated_at]
    come out as null and a missing [workflow_name] as "unknown".  The only
    event that fails is one whose [workflow_name] is a list or an object:
    it cannot be a dict key, and the answer is an error object. *)
Theorem workflow_status_single_run :
  forall (E : env) (wn : option string) (items : list json) (e : GithubActions.dict),
    events E = Loaded (JArr items) ->
    GithubActions.workflow_run_events items = Return [e] ->
    GithubActions.filter_by_name wn [e] = [e] ->
    (hashable (name_of e) = true ->
     GithubActions.get_workflow_status E wn
     = Return (JArr [ JObj [ ("workflow_name", name_of e);
                             ("run_id", get "run_id" e);
                             ("status", get "status" e);
                             ("conclusion", get "conclusion" e);
                             ("updated_at", get "updated_at" e) ] ]))
    /\ (hashable (name_of e) = false ->
        is_error_object_result (GithubActions.get_workflow_status E wn)).
Proof.
  intros E wn items e Hev Hw Hf.
  rewrite (status_loaded E wn (JArr items) items [e] Hev eq_refl Hw), Hf.
  simpl GithubActions.reduce. unfold GithubActions.step. fold (name_of e).
  split; intros Hh; rewrite Hh; simpl.
  - reflexivity.
  - eexists _, _. split; reflexivity.
Qed.

(** The single run of the spec's example, and a run that has only its
    [event] field. *)
Lemma workflow_status_single_run_witness :
  GithubActions.get_workflow_status
    (Sample.world [] (Loaded (JArr [ JObj Sample.ci_fields ]))) None
  = Return (JArr [ JObj [ ("workflow_name", JStr "CI"); ("run_id", JNull);
                          ("status", JStr "completed"); ("conclusion", JStr "success");
                          ("updated_at", JNull) ] ])
  /\ GithubActions.get_workflow_status
       (Sample.world [] (Loaded (JArr [ JObj Sample.bare_fields ]))) None
     = Return (JArr [ JObj [ ("workflow_name", JStr "unknown"); ("run_id", JNull);
                             ("status", JNull); ("conclusion", JNull);
                             ("updated_at", JNull) ] ]).
Proof.
  split.
  - exact (proj1 (workflow_status_single_run
                    (Sample.world [] (Loaded (JArr [ JObj Sample.ci_fields ]))) None
                    [ JObj Sample.ci_fields ] Sample.ci_fields
                    eq_refl eq_refl eq_refl) eq_refl).
  - exact (proj1 (workflow_status_single_run
                    (Sample.world [] (Loaded (JArr [ JObj Sample.bare_fields ]))) None
                    [ JObj Sample.bare_fields ] Sample.bare_fields
                    eq_refl eq_refl eq_refl) eq_refl).
Defined.

(** ** [get_workflow_status]: filtering by workflow name *)

Lemma get_name_of (e : GithubActions.dict) (n : string) :
  get "workflow_name" e = JStr n -> name_of e = JStr n.
Proof.
  unfold get, name_of, get_default.
  destruct (dict_get "workflow_name" e); [auto | discriminate].
Qed.

Lemma selected_by_name (E : env) (n : string) (e : GithubActions.dict) :
  n <> "" -> In e (selected_events E (Some n)) -> get "workflow_name" e = JStr n.
Proof.
  intros Hn. unfold selected_events.
  destruct (events E) as [| |v]; try contradiction.
  destruct (iterate v) as [items|]; try contradiction.
  destruct (GithubActions.workflow_run_events items) as [evs|]; try contradiction.
  unfold GithubActions.filter_by_name.
  apply String.eqb_neq in Hn. rewrite Hn. simpl.
  intros H. apply filter_In in H as [_ H]. now apply py_eq_str_r.
Qed.

(** Called with a non-empty [workflow_name], [get_workflow_status] returns
    at most one entry, and the entry's [workflow_name] is the name asked
    for. *)
Theorem workflow_status_by_name :
  forall (E : env) (n : string) (entries : list json),
    n <> "" ->
    GithubActions.get_workflow_status E (Some n) = Return (JArr entries) ->
    (List.length entries <= 1)%nat
    /\ forall entry, In entry entries -> field "workflow_name" entry = Some (JStr n).
Proof.
  intros E n entries Hn H.
  destruct (status_of_selected E (Some n) entries H) as (st & Hred & ->).
  pose proof (table_ok_reduce _ [] [] st table_ok_start Hred) as (I1 & I2 & _).
  simpl in I1.
  assert (Hkeys : Forall (fun kv => fst kv = JStr n
                            /\ dict_get "workflow_name" (snd kv) = Some (JStr n)) st).
  { eapply Forall_impl; [|exact I1]. intros [k v] (_ & e & He & Hs & Hk). simpl in *.
    pose proof (get_name_of e n (selected_by_name E n e Hn He)) as Hname.
    rewrite Hname in Hk. apply py_eq_str_r in Hk. split; [assumption|].
    subst v. now rewrite <- Hname. }
  split.
  - unfold GithubActions.values. rewrite length_map.
    destruct st as [|[k1 v1] [|[k2 v2] st]]; simpl; try lia.
    inversion Hkeys as [|? ? [K1 _] Hrest]; subst.
    inversion Hrest as [|? ? [K2 _] _]; subst. simpl in *. subst.
    inversion I2 as [|? ? Hall _]; subst. inversion Hall as [|? ? Hneq _]; subst.
    simpl in Hneq. now rewrite String.eqb_refl in Hneq.
  - intros entry Hin. unfold GithubActions.values in Hin.
    apply in_map_iff in Hin as ([k v] & <- & Hkv).
    rewrite Forall_forall in Hkeys. now destruct (Hkeys _ Hkv) as [_ Hv].
Qed.

(** Asked for "CI" in a log with runs of "CI" and a run without name. *)
Lemma workflow_status_by_name_witness :
  (List.length [ JObj (GithubActions.entry_of (Sample.run_fields "CI" 2 (Some Sample.jan2))) ]
   <= 1)%nat.
Proof.
  exact (proj1 (workflow_status_by_name
                  (Sample.world []
                     (Loaded (JArr [ Sample.run_event "CI" 1 (Some Sample.jan1);
                                     JObj Sample.unnamed_fields;
                                     Sample.run_event "CI" 2 (Some Sample.jan2) ])))
                  "CI"
                  [ JObj (GithubActions.entry_of (Sample.run_fields "CI" 2 (Some Sample.jan2))) ]
                  ltac:(discriminate) eq_refl)).
Defined.

(** ** [get_workflow_status]: logs it cannot digest *)

Lemma workflow_run_events_raises (items : list json) (x : json) :
  In x items -> (forall d, x <> JObj d) ->
  exists err, GithubActions.workflow_run_events items = Raise err.
Proof.
  intros Hin Hx. induction items as [|y items IH]; [contradiction|]. simpl.
  destruct y as [| | | | |d]; simpl; try (eexists; reflexivity).
  destruct Hin as [<-|Hin]; [now destruct (Hx d)|].
  destruct (IH Hin) as (err & ->). simpl. eauto.
Qed.

Lemma reduce_unhashable (evs : list GithubActions.dict) (e : GithubActions.dict) :
  In e evs -> hashable (name_of e) = false ->
  forall st, exists x, GithubActions.reduce st evs = Raise x.
Proof.
  intros Hin Hh. induction evs as [|e0 evs IH]; [contradiction|]. intros st. simpl.
  destruct (GithubActions.step st e0) as [st1|x] eqn:Hs; simpl; [|eauto].
  destruct Hin as [->|Hin]; [|now apply IH].
  unfold GithubActions.step in Hs. fold (name_of e) in Hs. rewrite Hh in Hs.
  discriminate.
Qed.

(** With an array on disk, [get_workflow_status] answers with the error
    object [{"error": "Failed to get workflow status: ..."}], for every
    name filter, as soon as one item of the array is not a JSON object (a
    number, a string, null, a nested array), even if that item is no
    workflow run; and likewise when a selected workflow_run event has a
    list or an object as [workflow_name]. *)
Theorem workflow_status_malformed_log :
  forall (E : env) (wn : option string) (items : list json),
    events E = Loaded (JArr items) ->
    (forall x, In x items -> (forall d, x <> JObj d) ->
       is_error_object_result (GithubActions.get_workflow_status E wn))
    /\ (forall evs e,
          GithubActions.workflow_run_events items = Return evs ->
          In e (GithubActions.filter_by_name wn evs) ->
          hashable (name_of e) = false ->
          is_error_object_result (GithubActions.get_workflow_status E wn)).
Proof.
  intros E wn items Hev. split.
  - intros x Hin Hx. destruct (workflow_run_events_raises items x Hin Hx) as (err & Hw).
    unfold GithubActions.get_workflow_status, GithubActions.exists_events,
      GithubActions.load_events. rewrite Hev. simpl. rewrite Hw. simpl.
    eexists _, _. split; reflexivity.
  - intros evs e Hw Hin Hh.
    rewrite (status_loaded E wn (JArr items) items evs Hev eq_refl Hw).
    destruct (reduce_unhashable _ e Hin Hh []) as (x & ->).
    eexists _, _. split; reflexivity.
Qed.

(** A log [[run, 7]]: the number makes the call fail. *)
Lemma workflow_status_malformed_log_witness :
  is_error_object_result
    (GithubActions.get_workflow_status
       (Sample.world []
          (Loaded (JArr [ Sample.run_event "CI" 1 (Some Sample.jan1); JInt 7 ]))) None).
Proof.
  apply (proj1 (workflow_status_malformed_log
                  (Sample.world []
                     (Loaded (JArr [ Sample.run_event "CI" 1 (Some Sample.jan1); JInt 7 ])))
                  None [ Sample.run_event "CI" 1 (Some Sample.jan1); JInt 7 ] eq_refl)
           (JInt 7)).
  - simpl. auto.
  - discriminate.
Defined.

(** ** [get_workflow_status]: the name filter commutes with the reduction *)

Lemma find_key_restrict (n : string) (st : GithubActions.status_table) :
  GithubActions.find_key (JStr n) (restrict n st) = GithubActions.find_key (JStr n) st.
Proof.
  induction st as [|[k v] st IH]; simpl; [reflexivity|].
  destruct (py_eq k (JStr n)) eqn:Hk; simpl; [now rewrite Hk | exact IH].
Qed.

Lemma restrict_set_same (n : string) (v : GithubActions.dict) (st : GithubActions.status_table) :
  restrict n (GithubActions.set_key (JStr n) v st)
  = GithubActions.set_key (JStr n) v (restrict n st).
Proof.
  induction st as [|[k w] st IH]; simpl.
  - now rewrite String.eqb_refl.
  - unfold restrict in *.
    destruct (py_eq k (JStr n)) eqn:Hk; repeat (simpl; rewrite ?Hk); [reflexivity | exact IH].
Qed.

Lemma restrict_set_other (n : string) (y : json) (v : GithubActions.dict)
    (st : GithubActions.status_table) :
  y <> JStr n -> restrict n (GithubActions.set_key y v st) = restrict n st.
Proof.
  intros Hy.
  assert (Hyn : py_eq y (JStr n) = false).
  { destruct (py_eq y (JStr n)) eqn:H; [|reflexivity].
    apply py_eq_str_r in H. contradiction. }
  induction st as [|[k w] st IH]; simpl.
  - now rewrite Hyn.
  - destruct (py_eq k y) eqn:Hk; simpl.
    + destruct (py_eq k (JStr n)) eqn:Hkn; [|reflexivity].
      apply py_eq_str_r in Hkn. subst k. apply py_eq_str_l in Hk. congruence.
    + destruct (py_eq k (JStr n)); [now rewrite IH | exact IH].
Qed.

Lemma step_restrict_same (n : string) (st : GithubActions.status_table)
    (e : GithubActions.dict) :
  name_of e = JStr n ->
  GithubActions.step (restrict n st) e
  = match GithubActions.step st e with
    | Return st1 => Return (restrict n st1)
    | Raise x => Raise x
    end.
Proof.
  intros Hn. unfold GithubActions.step. fold (name_of e). rewrite Hn.
  simpl hashable. cbn [negb]. rewrite find_key_restrict.
  destruct (GithubActions.find_key (JStr n) st) as [c|].
  - destruct (truthy (get "updated_at" e)); [|reflexivity].
    destruct (py_lt _ _) as [[|]|]; simpl; try reflexivity.
    now rewrite restrict_set_same.
  - now rewrite restrict_set_same.
Qed.

Lemma step_restrict_other (n : string) (st st1 : GithubActions.status_table)
    (e : GithubActions.dict) :
  name_of e <> JStr n -> GithubActions.step st e = Return st1 ->
  restrict n st1 = restrict n st.
Proof.
  intros Hn H.
  destruct (step_cases st st1 e H) as (_ & [(Hf & ->) | (c & Hf & [->| ->])]).
  - rewrite <- (set_key_absent _ (GithubActions.entry_of e) _ Hf).
    now apply restrict_set_other.
  - reflexivity.
  - now apply restrict_set_other.
Qed.

Lemma reduce_restrict (n : string) (evs : list GithubActions.dict) :
  (forall e, In e evs -> name_of e = JStr n -> get "workflow_name" e = JStr n) ->
  forall st st',
    GithubActions.reduce st evs = Return st' ->
    GithubActions.reduce (restrict n st)
      (List.filter (fun e => py_eq (get "workflow_name" e) (JStr n)) evs)
    = Return (restrict n st').
Proof.
  induction evs as [|e evs IH]; intros Hx st st' H; simpl in *.
  - now injection H as <-.
  - destruct (GithubActions.step st e) as [st1|] eqn:Hs; simpl in H; [|discriminate].
    assert (Hrest : forall e0, In e0 evs -> name_of e0 = JStr n ->
                               get "workflow_name" e0 = JStr n) by auto.
    destruct (py_eq (get "workflow_name" e) (JStr n)) eqn:Hk.
    + apply py_eq_str_r in Hk. simpl.
      rewrite (step_restrict_same n st e (get_name_of e n Hk)), Hs. simpl.
      now apply IH.
    + assert (Hne : name_of e <> JStr n).
      { intros Hn. rewrite (Hx e (or_introl eq_refl) Hn) in Hk. simpl in Hk.
        now rewrite String.eqb_refl in Hk. }
      rewrite <- (step_restrict_other n st st1 e Hne Hs). now apply IH.
Qed.

Lemma values_restrict (n : string) (seen : list GithubActions.dict)
    (st : GithubActions.status_table) :
  table_ok seen st ->
  GithubActions.values (restrict n st) = List.filter (named n) (GithubActions.values st).
Proof.
  intros (I1 & _ & _). unfold GithubActions.values, restrict.
  induction I1 as [|[k v] st (Hh & e & _ & Hs & Hk) _ IH]; simpl; [reflexivity|].
  simpl in Hs, Hk, Hh. subst v.
  assert (Heq : named n (JObj (GithubActions.entry_of e)) = py_eq k (JStr n)).
  { change (named n (JObj (GithubActions.entry_of e))) with (py_eq (name_of e) (JStr n)).
    destruct (py_eq k (JStr n)) eqn:H1.
    - apply py_eq_str_r in H1. subst k. apply py_eq_str_l in Hk. rewrite Hk.
      simpl. apply String.eqb_refl.
    - destruct (py_eq (name_of e) (JStr n)) eqn:H2; [|reflexivity].
      apply py_eq_str_r in H2. rewrite H2 in Hk. congruence. }
  rewrite Heq. destruct (py_eq k (JStr n)); simpl; now rewrite IH.
Qed.

(** If the unfiltered call returns a list, the call filtered by a name [n]
    returns exactly the entries of that list named [n], in the same order:
    the groups do not influence one another.  The one exception, excluded
    here, is [n] = "unknown" in a log that has runs without
    [workflow_name]: they are grouped under "unknown" but the filter, which
    compares the raw field, drops them. *)
Theorem workflow_status_filter_commutes :
  forall (E : env) (n : string) (entries : list json),
    n <> "" ->
    (forall e, In e (selected_events E None) -> name_of e = JStr n ->
               get "workflow_name" e = JStr n) ->
    GithubActions.get_workflow_status E None = Return (JArr entries) ->
    GithubActions.get_workflow_status E (Some n)
    = Return (JArr (List.filter (named n) entries)).
Proof.
  intros E n entries Hn Hx H.
  destruct (status_of_selected E None entries H) as (st & Hred & ->).
  pose proof (table_ok_reduce _ [] [] st table_ok_start Hred) as Hok. simpl in Hok.
  rewrite <- (values_restrict n _ st Hok).
  unfold selected_events in Hx, Hred.
  destruct (events E) as [|x|v] eqn:Hev.
  - simpl in Hred. injection Hred as <-.
    unfold GithubActions.get_workflow_status, GithubActions.exists_events.
    now rewrite Hev.
  - unfold GithubActions.get_workflow_status, GithubActions.exists_events,
      GithubActions.load_events in H. rewrite Hev in H. discriminate.
  - destruct (iterate v) as [items|] eqn:Hit.
    2:{ unfold GithubActions.get_workflow_status, GithubActions.exists_events,
          GithubActions.load_events in H. rewrite Hev in H. simpl in H.
        rewrite Hit in H. discriminate. }
    destruct (GithubActions.workflow_run_events items) as [evs|] eqn:Hw.
    2:{ unfold GithubActions.get_workflow_status, GithubActions.exists_events,
          GithubActions.load_events in H. rewrite Hev in H. simpl in H.
        rewrite Hit in H. simpl in H. rewrite Hw in H. discriminate. }
    simpl in Hx, Hred.
    rewrite (status_loaded E (Some n) v items evs Hev Hit Hw).
    unfold GithubActions.filter_by_name.
    apply String.eqb_neq in Hn. rewrite Hn. cbn [negb].
    pose proof (reduce_restrict n evs Hx [] st Hred) as R.
    change (restrict n []) with (@nil (json * GithubActions.dict)) in R.
    now rewrite R.
Qed.

(** A log with runs of "CI" and "Deploy": asking for "Deploy" gives the
    "Deploy" entry of the full answer. *)
Lemma workflow_status_filter_commutes_witness :
  GithubActions.get_workflow_status
    (Sample.world [] (Loaded (JArr Sample.mixed_runs))) (Some "Deploy")
  = Return (JArr [ JObj (GithubActions.entry_of (Sample.run_fields "Deploy" 2 (Some Sample.jan1))) ]).
Proof.
  apply (workflow_status_filter_commutes
           (Sample.world [] (Loaded (JArr Sample.mixed_runs))) "Deploy"
           [ JObj (GithubActions.entry_of (Sample.run_fields "CI" 3 (Some Sample.jan2)));
             JObj (GithubActions.entry_of (Sample.run_fields "Deploy" 2 (Some Sample.jan1))) ]).
  - discriminate.
  - intros e He Hname. simpl in He.
    destruct He as [<-|[<-|[<-|[]]]]; first [reflexivity | discriminate Hname].
  - reflexivity.
Defined.

(** ** Text lemmas: [splitlines], [strip], [split_once] *)

Lemma linebreak_is_space (c : ascii) : is_space c = false -> is_linebreak c = false.
Proof.
  unfold is_space, is_linebreak. cbv zeta.
  repeat match goal with
         | |- context [N.leb ?a ?b] => destruct (N.leb_spec a b)
         | |- context [N.eqb ?a ?b] => destruct (N.eqb_spec a b)
         end; simpl; try reflexivity; try discriminate; lia.
Qed.

Lemma all_chars_app (p : ascii -> bool) (a b : string) :
  all_chars p (a ++ b) = all_chars p a && all_chars p b.
Proof.
  induction a as [|c a IH]; simpl; [reflexivity|]. now rewrite IH, andb_assoc.
Qed.

Lemma all_chars_impl (p q : ascii -> bool) (s : string) :
  (forall c, p c = true -> q c = true) -> all_chars p s = true -> all_chars q s = true.
Proof.
  intros H. induction s as [|c s IH]; simpl; [reflexivity|].
  intros Hs. apply andb_true_iff in Hs as [Hc Hs]. now rewrite (H c Hc), IH.
Qed.

Lemma splitlines_line_then (a rest : string) :
  all_chars (fun c => negb (is_linebreak c)) a = true ->
  splitlines (a ++ String LF rest) = a :: splitlines rest.
Proof.
  induction a as [|c a IH]; intros Ha.
  - destruct rest; reflexivity.
  - simpl in Ha. apply andb_true_iff in Ha as [Hc Ha]. apply negb_true_iff in Hc.
    simpl. rewrite Hc, (IH Ha). reflexivity.
Qed.

Lemma splitlines_single (a : string) :
  a <> "" -> all_chars (fun c => negb (is_linebreak c)) a = true -> splitlines a = [a].
Proof.
  induction a as [|c a IH]; intros Hne Ha; [contradiction|].
  simpl in Ha. apply andb_true_iff in Ha as [Hc Ha]. apply negb_true_iff in Hc.
  simpl. rewrite Hc. destruct a as [|d a]; [reflexivity|].
  rewrite (IH ltac:(discriminate) Ha). reflexivity.
Qed.

Lemma splitlines_join (lines : list string) :
  Forall (fun l => l <> "" /\ all_chars (fun c => negb (is_linebreak c)) l = true) lines ->
  splitlines (join NL lines) = lines.
Proof.
  induction 1 as [|a lines [Hne Ha] Hl IH]; [reflexivity|].
  destruct lines as [|b lines].
  - simpl. now apply splitlines_single.
  - change (join NL (a :: b :: lines)) with (a ++ String LF (join NL (b :: lines)))%string.
    rewrite splitlines_line_then by assumption. now rewrite IH.
Qed.

Lemma rstrip_visible (b : string) : ends_visible b = true -> rstrip b = b.
Proof.
  induction b as [|c b IH]; [discriminate|]. intros H.
  destruct b as [|d b].
  - simpl in *. apply negb_true_iff in H. now rewrite H.
  - change (ends_visible (String c (String d b))) with (ends_visible (String d b)) in H.
    change (rstrip (String c (String d b)))
      with (match rstrip (String d b) with
            | EmptyString => if is_space c then "" else String c ""
            | r => String c r
            end).
    now rewrite (IH H).
Qed.

Lemma ends_visible_app (a b : string) :
  ends_visible b = true -> ends_visible (a ++ b) = true.
Proof.
  intros Hb. induction a as [|c a IH]; [assumption|].
  simpl. destruct (a ++ b)%string eqn:Hab; [|assumption].
  destruct a; [simpl in Hab; subst; discriminate | discriminate].
Qed.

Lemma rstrip_newline (s : string) : rstrip (s ++ NL) = rstrip s.
Proof.
  induction s as [|c s IH]; [reflexivity|].
  change (rstrip (String c s ++ NL))
    with (match rstrip (s ++ NL) with
          | EmptyString => if is_space c then "" else String c ""
          | r => String c r
          end).
  now rewrite IH.
Qed.

Lemma lstrip_visible (c : ascii) (s : string) :
  is_space c = false -> lstrip (String c s) = String c s.
Proof. intros H. simpl. now rewrite H. Qed.

(** [strip] of lines joined and ended by a line feed takes off exactly the
    final line feed, when the text starts and ends with visible characters. *)
Lemma strip_text (c : ascii) (s : string) :
  is_space c = false -> ends_visible (String c s) = true ->
  strip (String c s ++ NL) = String c s.
Proof.
  intros Hc He. unfold strip. rewrite rstrip_newline, (rstrip_visible _ He).
  now apply lstrip_visible.
Qed.

Lemma tab_is_space (c : ascii) : is_space c = false -> Ascii.eqb c TAB = false.
Proof.
  intros H. destruct (Ascii.eqb_spec c TAB) as [->|]; [discriminate H | reflexivity].
Qed.

(** "status TAB path" is cut once, at the first tab. *)
Lemma split_once_line (status path : string) :
  all_chars (fun c => negb (is_space c)) status = true ->
  split_once TAB (status ++ String TAB path) = [status; path].
Proof.
  induction status as [|c status IH]; intros Hs.
  - reflexivity.
  - simpl in Hs. apply andb_true_iff in Hs as [Hc Hs]. apply negb_true_iff in Hc.
    simpl. now rewrite (tab_is_space c Hc), (IH Hs).
Qed.

(** [line.split("\t", 1)[-1]] of "status TAB path" is the path. *)
Lemma path_of_line (status path : string) :
  all_chars (fun c => negb (is_space c)) status = true ->
  last_item (split_once TAB (status ++ String TAB path)) = path.
Proof. intros Hs. now rewrite split_once_line. Qed.

(** ** [BuildMcpServer.analyze_file_changes]: the changed files *)

Lemma name_status_output_join (entries : list (string * string)) :
  entries <> [] ->
  name_status_output entries
  = (join NL (List.map name_status_line entries) ++ NL)%string.
Proof.
  unfold name_status_output, join.
  induction entries as [|e entries IH]; intros Hne; [contradiction|].
  destruct entries as [|e' entries]; [reflexivity|].
  change (String.concat "" (List.map (fun entry => name_status_line entry ++ NL)
                              (e :: e' :: entries))%string)
    with ((name_status_line e ++ NL)
            ++ String.concat ""
                 (List.map (fun entry => name_status_line entry ++ NL) (e' :: entries)))%string.
  rewrite IH by discriminate.
  change (String.concat NL (List.map name_status_line (e :: e' :: entries)))
    with (name_status_line e ++ NL
            ++ String.concat NL (List.map name_status_line (e' :: entries)))%string.
  now rewrite !append_assoc.
Qed.

Lemma well_formed_line (entry : string * string) :
  well_formed entry ->
  name_status_line entry <> ""
  /\ all_chars (fun c => negb (is_linebreak c)) (name_status_line entry) = true
  /\ ends_visible (name_status_line entry) = true
  /\ (exists c s, name_status_line entry = String c s /\ is_space c = false)
  /\ last_item (split_once TAB (name_status_line entry)) = snd entry.
Proof.
  destruct entry as [status path]. unfold well_formed, name_status_line. simpl.
  intros (Hne & Hs & Hp & Hv). repeat split.
  - destruct status; [contradiction | discriminate].
  - rewrite all_chars_app. simpl. rewrite Hp.
    rewrite (all_chars_impl (fun c => negb (is_space c))
               (fun c => negb (is_linebreak c)) status); [reflexivity| |exact Hs].
    intros c Hc. apply negb_true_iff in Hc. apply negb_true_iff.
    now apply linebreak_is_space.
  - apply ends_visible_app.
    destruct path as [|d path]; [discriminate|]. exact Hv.
  - destruct status as [|c status]; [contradiction|].
    simpl in Hs. apply andb_true_iff in Hs as [Hc _]. apply negb_true_iff in Hc.
    simpl. eauto.
  - now apply path_of_line.
Qed.

Lemma ends_visible_join (lines : list string) :
  lines <> [] -> Forall (fun l => ends_visible l = true) lines ->
  ends_visible (join NL lines) = true.
Proof.
  intros Hne H. induction H as [|a lines Ha Hl IH]; [contradiction|].
  destruct lines as [|b lines]; [exact Ha|].
  change (join NL (a :: b :: lines)) with (a ++ NL ++ join NL (b :: lines))%string.
  rewrite <- append_assoc. apply ends_visible_app. apply IH. discriminate.
Qed.

(** What the tool makes of well-formed git output: the lines, then the paths. *)
Lemma paths_of_output (entries : list (string * string)) :
  Forall well_formed entries ->
  BuildMcpServer.paths_of (splitlines (strip (name_status_output entries)))
  = List.map snd entries.
Proof.
  intros Hwf. destruct entries as [|e entries]; [reflexivity|].
  rewrite name_status_output_join by discriminate.
  set (lines := List.map name_status_line (e :: entries)).
  assert (Hlines : Forall (fun l => l <> ""
                     /\ all_chars (fun c => negb (is_linebreak c)) l = true) lines).
  { unfold lines. apply Forall_map. eapply Forall_impl; [|exact Hwf].
    intros en Hen. destruct (well_formed_line en Hen) as (H1 & H2 & _). auto. }
  assert (Hvis : ends_visible (join NL lines) = true).
  { apply ends_visible_join; [discriminate|]. unfold lines. apply Forall_map.
    eapply Forall_impl; [|exact Hwf].
    intros en Hen. now destruct (well_formed_line en Hen) as (_ & _ & H3 & _). }
  assert (Hhead : exists c s, join NL lines = String c s /\ is_space c = false).
  { inversion Hwf as [|? ? He _]; subst.
    destruct (well_formed_line e He) as (_ & _ & _ & (c & s & Hcs & Hc) & _).
    unfold lines. simpl List.map. destruct (List.map name_status_line entries) as [|l ls].
    - simpl. eauto.
    - change (join NL (name_status_line e :: l :: ls))
        with (name_status_line e ++ NL ++ join NL (l :: ls))%string.
      rewrite Hcs. simpl. eauto. }
  destruct Hhead as (c & s & Hcs & Hc).
  rewrite Hcs in Hvis |- *. rewrite (strip_text c s Hc Hvis). rewrite <- Hcs.
  rewrite (splitlines_join lines Hlines).
  unfold lines, BuildMcpServer.paths_of. clear lines Hlines Hvis Hcs Hc c s.
  induction Hwf as [|en ens Hen _ IH]; [reflexivity|].
  destruct (well_formed_line en Hen) as (Hne & _ & _ & _ & Hpath).
  simpl. apply String.eqb_neq in Hne. rewrite Hne. simpl.
  now rewrite Hpath, IH.
Qed.

(** On well-formed output of [git diff --name-status] (one line
    "status TAB path" per changed file), the build-mcp-server
    [analyze_file_changes] without diff lists exactly the paths, in git's
    order, and counts them; a path may itself contain tabs, as the two
    paths of a rename line do. *)
Theorem build_analyze_file_changes_lists_paths :
  forall (E : env) (base_branch err : string) (max_diff_lines : Z)
         (entries : list (string * string)),
    Forall well_formed entries ->
    run E (BuildMcpServer.working_directory E) (build_names_argv base_branch)
    = Completed 0 (name_status_output entries) err ->
    BuildMcpServer.analyze_file_changes E base_branch false max_diff_lines
    = Return (JObj [ ("files_changed", JArr (List.map (fun entry => JStr (snd entry)) entries));
                     ("num_files_changed", JInt (Z.of_nat (List.length entries)));
                     ("used_working_directory", JStr (BuildMcpServer.working_directory E)) ]).
Proof.
  intros E b err M entries Hwf Hrun.
  unfold BuildMcpServer.analyze_file_changes, subprocess_run.
  unfold build_names_argv in Hrun. rewrite Hrun. simpl.
  rewrite (paths_of_output entries Hwf), length_map, map_map. reflexivity.
Qed.

(** Two changed files, as the sample git lists them. *)
Lemma build_analyze_file_changes_lists_paths_witness :
  BuildMcpServer.analyze_file_changes (Sample.world [] Missing) "main" false 500
  = Return (JObj [ ("files_changed", JArr [ JStr "server.py"; JStr "README.md" ]);
                   ("num_files_changed", JInt 2);
                   ("used_working_directory", JStr "/repo") ]).
Proof.
  apply (build_analyze_file_changes_lists_paths (Sample.world [] Missing) "main" "" 500
           [ ("M", "server.py"); ("A", "README.md") ]).
  - repeat constructor; simpl; discriminate.
  - reflexivity.
Defined.

(** ** [BuildMcpServer.analyze_file_changes]: errors and working directory *)

(** [analyze_file_changes] of the build-mcp-server module checks every
    command: it returns a report exactly when [git diff --name-status] and,
    with [include_diff], [git diff] exit with status 0, and an error object
    in every other case.  A report names as [used_working_directory] the
    first MCP root, or the process's directory when the roots are empty or
    cannot be had.  When [git diff --name-status] exits with a positive
    status, the error object holds the command line and the status; git's
    own message on stderr is not passed on. *)
Theorem build_analyze_file_changes_error_iff :
  forall (E : env) (base_branch : string) (include_diff : bool) (max_diff_lines : Z),
    (build_git_usable E base_branch include_diff = true <->
     is_report_result
       (BuildMcpServer.analyze_file_changes E base_branch include_diff max_diff_lines))
    /\ (build_git_usable E base_branch include_diff = false <->
        is_error_object_result
          (BuildMcpServer.analyze_file_changes E base_branch include_diff max_diff_lines))
    /\ (forall report,
          BuildMcpServer.analyze_file_changes E base_branch include_diff max_diff_lines
          = Return report ->
          field "error" report = None ->
          field "used_working_directory" report
          = Some (JStr match list_roots E with
                       | Return (root :: _) => root
                       | _ => getcwd E
                       end))
    /\ (forall rc out err,
          run E (BuildMcpServer.working_directory E) (build_names_argv base_branch)
          = Completed rc out err ->
          0 < rc ->
          BuildMcpServer.analyze_file_changes E base_branch include_diff max_diff_lines
          = Return (JObj [ ("error", JStr "Failed to analyze git changes");
                           ("details",
                            JStr ("Command '" ++ repr_list (build_names_argv base_branch)
                                    ++ "' returned non-zero exit status "
                                    ++ str_of_int rc ++ ".")) ])).
Proof.
  intros E b i M.
  assert (Hwd : BuildMcpServer.working_directory E
                = match list_roots E with
                  | Return (root :: _) => root
                  | _ => getcwd E
                  end).
  { unfold BuildMcpServer.working_directory.
    destruct (list_roots E) as [[|root rest]|]; reflexivity. }
  assert (H : if build_git_usable E b i
              then is_report_result (BuildMcpServer.analyze_file_changes E b i M)
                   /\ forall report,
                        BuildMcpServer.analyze_file_changes E b i M = Return report ->
                        field "used_working_directory" report
                        = Some (JStr (BuildMcpServer.working_directory E))
              else is_error_object_result (BuildMcpServer.analyze_file_changes E b i M)).
  { unfold build_git_usable, BuildMcpServer.analyze_file_changes, subprocess_run,
      build_names_argv, build_diff_argv.
    destruct (run E (BuildMcpServer.working_directory E) ["git"; "diff"; "--name-status"; b])
      as [rc1 o1 e1|x1]; simpl.
    2:{ destruct x1; eexists _, _; split; reflexivity. }
    destruct (rc1 =? 0); simpl; [|eexists _, _; split; reflexivity].
    destruct i; simpl.
    - destruct (run E (BuildMcpServer.working_directory E) ["git"; "diff"; b])
        as [rc2 o2 e2|x2]; simpl.
      2:{ destruct x2; eexists _, _; split; reflexivity. }
      destruct (rc2 =? 0); simpl; [|eexists _, _; split; reflexivity].
      destruct (Z.of_nat (List.length (splitlines o2)) >? M); simpl;
        (split; [eexists; split; reflexivity | intros report [= <-]; reflexivity]).
    - split; [eexists; split; reflexivity | intros report [= <-]; reflexivity]. }
  split; [|split; [|split]].
  - destruct (build_git_usable E b i); split; try discriminate; try tauto.
    intros H'. exfalso. now apply (report_is_no_error _ H').
  - destruct (build_git_usable E b i); split; try discriminate; try tauto.
    intros H'. exfalso. destruct H as [H _]. now apply (report_is_no_error _ H).
  - intros report Hr Herr. rewrite <- Hwd.
    destruct (build_git_usable E b i).
    + destruct H as [_ H]. now apply H.
    + destruct H as (f & t & Hf & Ht). rewrite Hr in Hf. injection Hf as ->.
      simpl in Herr. congruence.
  - intros rc out err Hrun Hrc.
    unfold BuildMcpServer.analyze_file_changes, subprocess_run.
    unfold build_names_argv in *. rewrite Hrun.
    destruct (Z.eqb_spec rc 0) as [->|_]; [lia|]. simpl.
    destruct (Z.ltb_spec rc 0); [lia|]. reflexivity.
Qed.

(** The sample repository through a git whose plain [git diff] exits with
    status 128: with the diff requested, the answer is the error object
    naming the command. *)
Lemma build_analyze_file_changes_error_iff_witness :
  is_error_object_result
    (BuildMcpServer.analyze_file_changes (Sample.world_diff_fails [] Missing) "main" true 500).
Proof.
  exact (proj1 (proj1 (proj2 (build_analyze_file_changes_error_iff
                                (Sample.world_diff_fails [] Missing) "main" true 500)))
           eq_refl).
Defined.

(** The answer of the build-mcp-server [analyze_file_changes] is fixed by
    the working directory it resolves and by what its commands do in that
    directory: worlds that agree on these give the same answer, whatever
    git would do in the process's directory or in the other roots, and
    whatever the templates and the event log hold.  With
    [include_diff=false] only [git diff --name-status] is run. *)
Theorem build_analyze_file_changes_frame :
  forall (E E' : env) (base_branch : string) (include_diff : bool) (max_diff_lines : Z),
    BuildMcpServer.working_directory E = BuildMcpServer.working_directory E' ->
    signal_name E = signal_name E' ->
    run E (BuildMcpServer.working_directory E) (build_names_argv base_branch)
    = run E' (BuildMcpServer.working_directory E') (build_names_argv base_branch) ->
    (include_diff = true ->
     run E (BuildMcpServer.working_directory E) (build_diff_argv base_branch)
     = run E' (BuildMcpServer.working_directory E') (build_diff_argv base_branch)) ->
    BuildMcpServer.analyze_file_changes E base_branch include_diff max_diff_lines
    = BuildMcpServer.analyze_file_changes E' base_branch include_diff max_diff_lines.
Proof.
  intros E E' b i M Hwd Hsig H1 H2.
  assert (Hstr : forall e, str_exn E e = str_exn E' e).
  { intros [cmd rc out err|cls text]; simpl; [now rewrite Hsig | reflexivity]. }
  unfold BuildMcpServer.analyze_file_changes, subprocess_run.
  unfold build_names_argv, build_diff_argv in *. rewrite Hwd in *. rewrite H1.
  destruct (run E' (BuildMcpServer.working_directory E') ["git"; "diff"; "--name-status"; b])
    as [rc1 o1 e1|x1]; cbn -[str_exn].
  2:{ rewrite !Hstr. reflexivity. }
  destruct (rc1 =? 0); cbn -[str_exn]; [|now rewrite Hstr].
  destruct i; cbn -[str_exn]; [|reflexivity].
  rewrite (H2 eq_refl).
  destruct (run E' (BuildMcpServer.working_directory E') ["git"; "diff"; b])
    as [rc2 o2 e2|x2]; cbn -[str_exn].
  2:{ rewrite !Hstr. reflexivity. }
  destruct (rc2 =? 0); cbn -[str_exn]; [|now rewrite Hstr].
  destruct (Z.of_nat (List.length (splitlines o2)) >? M); reflexivity.
Qed.

(** Without the diff, a failing [git diff] and other templates and events
    change nothing. *)
Lemma build_analyze_file_changes_frame_witness :
  BuildMcpServer.analyze_file_changes (Sample.world [] Missing) "main" false 500
  = BuildMcpServer.analyze_file_changes
      (Sample.world_diff_fails Sample.all_templates (Loaded (JArr Sample.two_runs)))
      "main" false 500.
Proof.
  apply (build_analyze_file_changes_frame (Sample.world [] Missing)
           (Sample.world_diff_fails Sample.all_templates (Loaded (JArr Sample.two_runs)))
           "main" false 500); try reflexivity.
  discriminate.
Defined.

(** ** [GithubActions.analyze_file_changes]: how lines are counted *)

Lemma split_length (s : string) : List.length (split LF s) = S (newlines s).
Proof.
  induction s as [|c s IH]; simpl; [reflexivity|].
  destruct (Ascii.eqb c LF); simpl; [now rewrite IH|].
  pose proof (split_nonempty LF s) as Hne.
  destruct (split LF s) as [|w ws]; [contradiction|]. simpl in *. exact IH.
Qed.

Lemma slice_to_negative {A : Type} (M : Z) (xs : list A) :
  M < 0 -> slice_to M xs = firstn (Z.to_nat (Z.of_nat (List.length xs) + M)) xs.
Proof.
  intros HM. unfold slice_to, clamp.
  destruct (Z.ltb_spec M 0); [|lia]. f_equal. lia.
Qed.

(** With the diff requested, [total_diff_lines] is one more than the number
    of line feeds in git's output, so an empty diff counts as 1 line and a
    diff of n lines that ends in a line feed as n+1; [truncated] is true
    exactly when that count exceeds [max_diff_lines].  A negative
    [max_diff_lines] = M is read as a slice bound: the diff keeps the first
    L+M of its L lines (none if L+M < 0), followed by the notice. *)
Theorem analyze_file_changes_line_count :
  forall (E : env) (base_branch names stat raw log : string) (M : Z),
    git_ran E base_branch names stat raw log ->
    let L := Z.of_nat (S (newlines raw)) in
    exists diff,
      GithubActions.analyze_file_changes E base_branch true M
      = Return (analysis base_branch names stat log diff (L >? M) L)
      /\ (M < 0 ->
          diff = (join NL (firstn (Z.to_nat (L + M)) (split LF raw))
                    ++ GithubActions.truncation_notice M (S (newlines raw)))%string)
      /\ (raw = "" -> 1 <= M -> diff = "").
Proof.
  intros E base names stat raw log M
    ((e1 & H1) & (r2 & e2 & H2) & (r3 & e3 & H3) & (r4 & e4 & H4)) L.
  exists (fst (fst (GithubActions.limit_diff raw M))).
  assert (Hlim : GithubActions.limit_diff raw M
                 = if L >? M
                   then (join NL (slice_to M (split LF raw))
                           ++ GithubActions.truncation_notice M (S (newlines raw)),
                         true, S (newlines raw))
                   else (raw, false, S (newlines raw))).
  { rewrite limit_diff_spec. cbv zeta. rewrite split_length. reflexivity. }
  split; [|split].
  - unfold GithubActions.analyze_file_changes, subprocess_run.
    rewrite H1, H2, H3, H4. cbn [bind andb negb Z.eqb stdout try_except].
    rewrite Hlim. destruct (L >? M); reflexivity.
  - intros HM. rewrite Hlim.
    destruct (Z.gtb_spec L M) as [_|]; [|lia]. cbn [fst].
    rewrite slice_to_negative by assumption. now rewrite split_length.
  - intros -> HM. rewrite Hlim.
    destruct (Z.gtb_spec L M) as [Hgt|_]; [|reflexivity].
    unfold L in Hgt. simpl in Hgt. lia.
Qed.

(** The three-line sample diff holds two line feeds; with
    [max_diff_lines] = -2 only its first line is kept. *)
Lemma analyze_file_changes_line_count_witness :
  GithubActions.analyze_file_changes (Sample.world [] Missing) "main" true (-2)
  = Return (analysis "main" Sample.names Sample.stat Sample.log
              ("a" ++ GithubActions.truncation_notice (-2) 3) true 3).
Proof.
  destruct (analyze_file_changes_line_count (Sample.world [] Missing) "main"
              Sample.names Sample.stat Sample.diff Sample.log (-2)
              (sample_git_ran [] Missing)) as (d & Heq & Hneg & _).
  rewrite (Hneg ltac:(reflexivity)) in Heq. exact Heq.
Defined.

(** ** [get_workflow_status]: runs without timestamp *)







(** ** [get_workflow_status]: the order of the entries *)

Lemma find_key_existsb (n : string) (st : GithubActions.status_table) (ks : list string) :
  List.map fst st = List.map JStr ks ->
  (GithubActions.find_key (JStr n) st = None <-> existsb (String.eqb n) ks = false).
Proof.
  revert ks. induction st as [|[k v] st IH]; intros [|k' ks] Hk; simpl in *;
    try discriminate; [tauto|].
  injection Hk as -> Hk. simpl. rewrite (String.eqb_sym n k').
  destruct (String.eqb k' n); simpl; [split; discriminate | now apply IH].
Qed.

Lemma step_keys (st st1 : GithubActions.status_table) (e : GithubActions.dict)
    (ks : list string) (n : string) :
  List.map fst st = List.map JStr ks -> name_of e = JStr n ->
  GithubActions.step st e = Return st1 ->
  List.map fst st1
  = List.map JStr (if existsb (String.eqb n) ks then ks else (ks ++ [n])%list).
Proof.
  intros Hk Hn Hs.
  destruct (step_cases st st1 e Hs) as (_ & [(Hf & ->) | (c & Hf & Hst)]);
    rewrite Hn in Hf.
  - apply (find_key_existsb n st ks Hk) in Hf. rewrite Hf.
    now rewrite !map_app, Hk, Hn.
  - destruct (existsb (String.eqb n) ks) eqn:Hex.
    + destruct Hst as [->| ->]; [assumption|].
      destruct (find_key_some _ _ _ Hf) as (l1 & k & l2 & Est & _ & Hset).
      rewrite Hn, Hset, <- Hk, Est, !map_app. reflexivity.
    + apply (find_key_existsb n st ks Hk) in Hex. congruence.
Qed.

Lemma reduce_keys (evs : list GithubActions.dict) :
  Forall (fun e => exists n, name_of e = JStr n) evs ->
  forall (st st' : GithubActions.status_table) (ks : list string),
    List.map fst st = List.map JStr ks ->
    GithubActions.reduce st evs = Return st' ->
    List.map fst st' = List.map JStr (first_occurrences ks (List.map name_text evs)).
Proof.
  induction 1 as [|e evs (n & Hn) _ IH]; intros st st' ks Hk H; simpl in *.
  - now injection H as <-.
  - destruct (GithubActions.step st e) as [st1|] eqn:Hs; simpl in H; [|discriminate].
    assert (Ht : name_text e = n) by (unfold name_text; now rewrite Hn).
    rewrite Ht.
    apply (IH st1 st' _ (step_keys st st1 e ks n Hk Hn Hs) H).
Qed.

(** When the selected events all have a str name (or none, which reads
    "unknown"), the entries of the answer come in the order in which the
    workflow names first occur in the log, one per name: replacing the
    entry of a workflow by a later run never moves it. *)
Theorem workflow_status_order :
  forall (E : env) (wn : option string) (entries : list json),
    Forall (fun e => exists n, name_of e = JStr n) (selected_events E wn) ->
    GithubActions.get_workflow_status E wn = Return (JArr entries) ->
    List.map (field "workflow_name") entries
    = List.map (fun n => Some (JStr n))
        (first_occurrences [] (List.map name_text (selected_events E wn))).
Proof.
  intros E wn entries Hnames H.
  destruct (status_of_selected E wn entries H) as (st & Hred & ->).
  pose proof (table_ok_reduce _ [] [] st table_ok_start Hred) as (I1 & _ & _).
  simpl in I1.
  rewrite <- (map_map JStr Some).
  rewrite <- (reduce_keys _ Hnames [] st [] eq_refl Hred).
  unfold GithubActions.values. rewrite !map_map.
  apply map_ext_in. intros [k v] Hkv.
  rewrite Forall_forall in I1, Hnames.
  destruct (I1 _ Hkv) as (_ & e & He & Hs & Hk). simpl in *. subst v.
  destruct (Hnames e He) as (n & Hn).
  change (dict_get "workflow_name" (GithubActions.entry_of e)) with (Some (name_of e)).
  rewrite Hn in Hk |- *. apply py_eq_str_r in Hk. now subst k.
Qed.

(** Runs of "CI", "Deploy", "CI": the answer lists "CI" before "Deploy",
    although the reported run of "CI" is the last event. *)
Lemma workflow_status_order_witness :
  List.map (field "workflow_name")
    [ JObj (GithubActions.entry_of (Sample.run_fields "CI" 3 (Some Sample.jan2)));
      JObj (GithubActions.entry_of (Sample.run_fields "Deploy" 2 (Some Sample.jan1))) ]
  = [ Some (JStr "CI"); Some (JStr "Deploy") ].
Proof.
  apply (workflow_status_order (Sample.world [] (Loaded (JArr Sample.mixed_runs))) None
           [ JObj (GithubActions.entry_of (Sample.run_fields "CI" 3 (Some Sample.jan2)));
             JObj (GithubActions.entry_of (Sample.run_fields "Deploy" 2 (Some Sample.jan1))) ]).
  - repeat constructor; eexists; reflexivity.
  - reflexivity.
Defined.
